(** * Campus Resource Share: a shallow embedding of [app.py]

    The application is one Streamlit script.  Each user interaction runs the
    script once, top to bottom, against three managed services (identity
    provider, document store, blob store) and a hosted language model.

    The embedding keeps the script's structure: a small state-and-exception
    monad over a [world] that holds the session, the [resources] collection,
    the storage bucket and a chronological trace of every external call and
    every message shown to the user.  Python [str] values are byte strings
    holding the UTF-8 encoding of the text. *)

From stdpp Require Import gmap strings list fin_maps.
From Stdlib Require Import Ascii String NArith.

(** ** Python strings *)

Module PyStr.

(** The line feed written [\n] in the source's literals. *)
Definition nl : string := String "010"%char "".

(** [needle in hay] on [str]: [needle] occurs as a contiguous run. *)
Fixpoint str_in (needle hay : string) : bool :=
  String.prefix needle hay ||
  match hay with
  | EmptyString => false
  | String _ rest => str_in needle rest
  end.

(** [not s] on [str]: only the empty string is falsy. *)
Definition falsy (s : string) : bool :=
  match s with
  | EmptyString => true
  | String _ _ => false
  end.

(** [s.endswith(suffix)]. *)
Definition endswith (s suffix : string) : bool :=
  String.prefix (String.rev suffix) (String.rev s).

(** [s.split(sep)[0]] for a one-character separator: the text before the
    first separator, the whole text when there is none. *)
Fixpoint split_head (sep : ascii) (s : string) : string :=
  match s with
  | EmptyString => EmptyString
  | String c rest =>
      if Ascii.eqb c sep then EmptyString else String c (split_head sep rest)
  end.

(** [str.lower] restricted to the ASCII letters; the instance used to run
    the model on concrete inputs. *)
Definition ascii_lower_char (c : ascii) : ascii :=
  let n := N_of_ascii c in
  if ((65 <=? n) && (n <=? 90))%N then ascii_of_N (n + 32) else c.

Fixpoint ascii_lower (s : string) : string :=
  match s with
  | EmptyString => EmptyString
  | String c rest => String (ascii_lower_char c) (ascii_lower rest)
  end.

End PyStr.

Import PyStr.

(** ** Data model *)

(** [firestore.SERVER_TIMESTAMP] is a sentinel the store replaces by its own
    clock when the document is written. *)
Inductive timestamp_value :=
| SERVER_TIMESTAMP
| ServerTime (t : N).

(** A document of the [resources] collection, with the keys the script
    writes and reads. *)
Record resource := {
  title : string;
  description : string;
  category : string;
  owner : string;
  file_url : string;
  status : string;
  timestamp : timestamp_value;
}.

#[global] Instance timestamp_value_eq_dec : EqDecision timestamp_value.
Proof. solve_decision. Defined.

#[global] Instance resource_eq_dec : EqDecision resource.
Proof. solve_decision. Defined.

Definition set_status (s : string) (r : resource) : resource :=
  {| title := title r; description := description r; category := category r;
     owner := owner r; file_url := file_url r; status := s;
     timestamp := timestamp r |}.

Definition set_timestamp (t : timestamp_value) (r : resource) : resource :=
  {| title := title r; description := description r; category := category r;
     owner := owner r; file_url := file_url r; status := status r;
     timestamp := t |}.

(** The options of the category select box. *)
Inductive category_choice := Books | Notes | LabEquipment | Other.

Definition category_label (c : category_choice) : string :=
  match c with
  | Books => "Books"
  | Notes => "Notes"
  | LabEquipment => "Lab Equipment"
  | Other => "Other"
  end.

(** The three chains built on the language model. *)
Inductive agent := stitch_agent | antigravity_agent | gemini_agent.

#[global] Instance agent_eq_dec : EqDecision agent.
Proof. solve_decision. Defined.

(** Message boxes of the page. *)
Inductive ui_kind := st_error | st_success | st_info.

(** Everything a run does that is visible outside the script. *)
Inductive event :=
| EvAgentRun (a : agent) (input : string)
| EvCreateUser (email password : string)
| EvGetUserByEmail (email : string)
| EvBlobUpload (filename content : string)
| EvSignedUrl (filename : string) (days : N) (method : string)
| EvDbAdd (id : string) (doc : resource)
| EvDbUpdate (id : string) (new_status : string)
| EvDbQuery (wanted_status : string)
| EvMessage (k : ui_kind) (text : string)
| EvCard (id : string) (doc : resource)
| EvImage (url : string)
| EvDownloadLink (url : string).

(** An uploaded file: its name and its bytes. *)
Record upload := { upload_name : string; upload_bytes : string }.

Record world := {
  session_user : option string;
  resources : gmap string resource;
  bucket : gmap string string;
  clock : N;
  trace : list event;
}.

(** Updates of one component of the world. *)
Definition log (evs : list event) (w : world) : world :=
  {| session_user := session_user w; resources := resources w;
     bucket := bucket w; clock := clock w; trace := trace w ++ evs |}.

Definition with_session_user (u : option string) (w : world) : world :=
  {| session_user := u; resources := resources w; bucket := bucket w;
     clock := clock w; trace := trace w |}.

Definition with_resources (m : gmap string resource) (w : world) : world :=
  {| session_user := session_user w; resources := m; bucket := bucket w;
     clock := clock w; trace := trace w |}.

Definition with_bucket (b : gmap string string) (w : world) : world :=
  {| session_user := session_user w; resources := resources w; bucket := b;
     clock := clock w; trace := trace w |}.

Definition tick (w : world) : world :=
  {| session_user := session_user w; resources := resources w;
     bucket := bucket w; clock := (clock w + 1)%N; trace := trace w |}.

(** ** Outcomes of running a piece of the script *)

(** [st.rerun] and [st.stop] raise script-control exceptions, which derive
    from [BaseException] and so pass through [except Exception]. *)
Inductive control := ScriptRerun | ScriptStop.

Inductive outcome (A : Type) :=
| Return (a : A)
| Raise (e : string)
| Halt (c : control).

Arguments Return {A} a.
Arguments Raise {A} e.
Arguments Halt {A} c.

(** What a call to an external, fallible service answers: a value, or an
    [Exception] whose [str] is the message. *)
Inductive reply (A : Type) :=
| Answer (a : A)
| Failure (e : string).

Arguments Answer {A} a.
Arguments Failure {A} e.

Definition M (A : Type) : Type := world → outcome A * world.

Definition ret {A} (a : A) : M A := fun w => (Return a, w).

Definition bind {A B} (m : M A) (k : A → M B) : M B :=
  fun w =>
    match m w with
    | (Return a, w') => k a w'
    | (Raise e, w') => (Raise e, w')
    | (Halt c, w') => (Halt c, w')
    end.

Definition raise {A} (e : string) : M A := fun w => (Raise e, w).

Definition halt {A} (c : control) : M A := fun w => (Halt c, w).

(** [try: body  except Exception as e: handler(str(e))]. *)
Definition try_except {A} (body : M A) (handler : string → M A) : M A :=
  fun w =>
    match body w with
    | (Raise e, w') => handler e w'
    | other => other
    end.

#[global] Instance M_ret : MRet M := @ret.
#[global] Instance M_bind : MBind M := λ A B k m, bind m k.

Definition emit (e : event) : M unit :=
  fun w => (Return tt, log [e] w).

Definition message (k : ui_kind) (text : string) : M unit :=
  emit (EvMessage k text).

Definition of_reply {A} (r : reply A) : M A :=
  match r with
  | Answer a => ret a
  | Failure e => raise e
  end.

(** ** The services behind the script *)

(** The managed services are taken as they answer: the language model and the
    identity provider may fail with an exception; the document store and the
    bucket are modelled inside [world] and take every write. *)
Record services := {
  has_gemini_api_key : bool;
  llm_run : agent → string → reply string;
  create_user : string → string → reply unit;
  get_user_by_email : string → reply unit;
  generate_signed_url : string → N → string → string;
}.

(** The radio button of the login form. *)
Inductive auth_choice := Login | Signup.

(** The widget values the script reads during a run. *)
Record widgets := {
  w_choice : auth_choice;
  w_email : string;
  w_password : string;
  w_title : string;
  w_description : string;
  w_category : category_choice;
  w_uploaded_file : option upload;
  w_search_query : string;
}.

(** The button whose click started the run; a button is [True] only in the
    run its click triggers, and only one click triggers a run. *)
Inductive click :=
| NoClick
| ClickSubmit
| ClickLogout
| ClickPost
| ClickRequest (id : string).

#[global] Instance click_eq_dec : EqDecision click.
Proof. solve_decision. Defined.

(** Every name the script binds anywhere at module level: the imports of
    lines 1-8, the assigned variables, the function of line 74 and the loop
    and [except] targets.  A name outside this list (and outside Python's
    builtins, which hold no [timedelta]) is unbound in every run. *)
Definition module_globals : list string :=
  [ "st"; "firebase_admin"; "credentials"; "firestore"; "auth"; "storage";
    "PromptTemplate"; "LLMChain"; "GoogleGenerativeAI"; "os";
    "cred"; "db"; "storage_client"; "bucket_name"; "bucket";
    "GEMINI_API_KEY"; "llm";
    "stitch_prompt"; "stitch_agent"; "antigravity_prompt";
    "antigravity_agent"; "gemini_prompt"; "gemini_agent";
    "process_resource_with_agents";
    "choice"; "email"; "password"; "user"; "e";
    "title"; "description"; "category"; "uploaded_file"; "submitted";
    "file_url"; "filename"; "blob"; "signed_url"; "resource_data";
    "ai_result"; "search_query"; "resources"; "found"; "doc"; "data" ].

(** Reading a global name: a [NameError] when the module never bound it. *)
Definition load_global (name : string) : M unit :=
  if bool_decide (name ∈ module_globals) then ret tt
  else raise ("name '" +:+ name +:+ "' is not defined").

(** The agent calls made so far, in order, with their inputs. *)
Fixpoint runs_of (a : agent) (tr : list event) : list string :=
  match tr with
  | [] => []
  | EvAgentRun b input :: rest =>
      if bool_decide (a = b) then input :: runs_of a rest else runs_of a rest
  | _ :: rest => runs_of a rest
  end.

(** An event that writes to a service, calls the identity provider or calls
    the model. *)
Definition touches_service (e : event) : bool :=
  match e with
  | EvAgentRun _ _ | EvCreateUser _ _ | EvGetUserByEmail _
  | EvBlobUpload _ _ | EvSignedUrl _ _ _ | EvDbAdd _ _ | EvDbUpdate _ _ => true
  | EvDbQuery _ | EvMessage _ _ | EvCard _ _ | EvImage _
  | EvDownloadLink _ => false
  end.

Section App.

(** [str.lower] and [str] of the posted dictionary come from the Python
    runtime; the script's behaviour is stated for whatever they compute. *)
Variable lower : string → string.
Variable str_of_resource : resource → string.
Variable sv : services.

(** *** Primitive calls *)

(** [chain.run(input)]. *)
Definition agent_run (a : agent) (input : string) : M string :=
  emit (EvAgentRun a input);; of_reply (llm_run sv a input).

(** [auth.create_user(email=..., password=...)]. *)
Definition auth_create_user (email password : string) : M unit :=
  emit (EvCreateUser email password);; of_reply (create_user sv email password).

(** [auth.get_user_by_email(email)]. *)
Definition auth_get_user_by_email (email : string) : M unit :=
  emit (EvGetUserByEmail email);; of_reply (get_user_by_email sv email).

(** [st.session_state.user = ...] and [del st.session_state.user]. *)
Definition set_session (u : option string) : M unit :=
  fun w => (Return tt, with_session_user u w).

(** [bucket.blob(filename).upload_from_file(f)]. *)
Definition blob_upload (filename content : string) : M unit :=
  fun w =>
    (Return tt,
     log [EvBlobUpload filename content]
       (with_bucket (<[filename := content]> (bucket w)) w)).

(** [blob.generate_signed_url(version="v4", expiration=..., method=...)]. *)
Definition blob_generate_signed_url (filename : string) (days : N)
    (method : string) : M string :=
  emit (EvSignedUrl filename days method);;
  ret (generate_signed_url sv filename days method).

(** [timedelta(days=n)]: the name is looked up, then called. *)
Definition timedelta (days : N) : M N :=
  load_global "timedelta";; ret days.

(** [db.collection("resources").add(doc)]: a new document under an unused
    identifier, stamped by the server. *)
Definition db_add (doc : resource) : M string :=
  fun w =>
    let id := fresh (dom (resources w)) in
    let stored := set_timestamp (ServerTime (clock w)) doc in
    (Return id,
     log [EvDbAdd id stored]
       (tick (with_resources (<[id := stored]> (resources w)) w))).

(** [db.collection("resources").document(id).update({"status": s})]. *)
Definition db_update_status (id s : string) : M unit :=
  fun w =>
    match resources w !! id with
    | None =>
        (Raise ("404 No document to update: " +:+ id),
         log [EvDbUpdate id s] w)
    | Some _ =>
        (Return tt,
         log [EvDbUpdate id s]
           (with_resources (alter (set_status s) id (resources w)) w))
    end.

(** [db.collection("resources").where("status", "==", s).stream()]. *)
Definition db_where_status (s : string) : M (list (string * resource)) :=
  fun w =>
    (Return (filter (λ kv, status kv.2 = s) (map_to_list (resources w))),
     log [EvDbQuery s] w).

(** *** The moderation pipeline (lines 74-83) *)

Definition process_resource_with_agents (resource_data : resource) : M string :=
  try_except
    (cleaned ← agent_run stitch_agent (str_of_resource resource_data);
     safety ← agent_run antigravity_agent cleaned;
     if str_in "rejected" (lower safety) then
       ret ("❌ Rejected: " +:+ safety)
     else
       recommendations ← agent_run gemini_agent cleaned;
       ret ("✅ Approved!" +:+ nl +:+ nl +:+ "**AI Recommendations:**" +:+ nl
            +:+ recommendations))
    (λ e, ret ("⚠️ Agent error: " +:+ e)).

(** The result of the pipeline as a function of the three stubs alone. *)
Definition pipeline_message (resource_data : resource) : string :=
  match llm_run sv stitch_agent (str_of_resource resource_data) with
  | Failure e => "⚠️ Agent error: " +:+ e
  | Answer cleaned =>
      match llm_run sv antigravity_agent cleaned with
      | Failure e => "⚠️ Agent error: " +:+ e
      | Answer safety =>
          if str_in "rejected" (lower safety) then "❌ Rejected: " +:+ safety
          else
            match llm_run sv gemini_agent cleaned with
            | Failure e => "⚠️ Agent error: " +:+ e
            | Answer recommendations =>
                "✅ Approved!" +:+ nl +:+ nl +:+ "**AI Recommendations:**" +:+ nl
                +:+ recommendations
            end
      end
  end.

(** The agent calls of one pipeline run, in order. *)
Definition pipeline_events (resource_data : resource) : list event :=
  let input := str_of_resource resource_data in
  EvAgentRun stitch_agent input ::
  match llm_run sv stitch_agent input with
  | Failure _ => []
  | Answer cleaned =>
      EvAgentRun antigravity_agent cleaned ::
      match llm_run sv antigravity_agent cleaned with
      | Failure _ => []
      | Answer safety =>
          if str_in "rejected" (lower safety) then []
          else [EvAgentRun gemini_agent cleaned]
      end
  end.

(** *** Login and signup (lines 86-117) *)

Definition auth_section (ws : widgets) (c : click) : M unit :=
  fun w =>
    match session_user w with
    | None =>
        match c with
        | ClickSubmit =>
            let email := w_email ws in
            let password := w_password ws in
            if falsy email || falsy password then
              message st_error "Please fill both fields" w
            else
              try_except
                (match w_choice ws with
                 | Signup =>
                     auth_create_user email password;;
                     message st_success "Account created successfully!";;
                     message st_info "Now log in with the same credentials."
                 | Login =>
                     auth_get_user_by_email email;;
                     message st_success ("Welcome back, " +:+ email +:+ "!");;
                     set_session (Some email);;
                     halt ScriptRerun
                 end)
                (λ e,
                   if str_in "EMAIL_ALREADY_EXISTS" e then
                     message st_error "Email already registered. Try logging in."
                   else if str_in "INVALID_EMAIL" e then
                     message st_error "Invalid email format."
                   else message st_error ("Error: " +:+ e))
                w
        | _ => ret tt w
        end
    | Some user_email =>
        (message st_success ("Logged in as: " +:+ user_email);;
         match c with
         | ClickLogout => set_session None;; halt ScriptRerun
         | _ => ret tt
         end) w
    end.

(** *** Posting a resource (lines 120-170) *)

Definition post_section (ws : widgets) (c : click) : M unit :=
  fun w =>
    match session_user w with
    | None => ret tt w
    | Some user_email =>
        match c with
        | ClickPost =>
            let title := w_title ws in
            let description := w_description ws in
            if falsy title || falsy description then
              message st_error "Title and description are required." w
            else
              (file_url ←
                 match w_uploaded_file ws with
                 | Some uploaded_file =>
                     let filename :=
                       split_head "@"%char user_email +:+ "_"
                       +:+ upload_name uploaded_file in
                     blob_upload filename (upload_bytes uploaded_file);;
                     expiration ← timedelta 365;
                     signed_url ←
                       blob_generate_signed_url filename expiration "GET";
                     message st_success "File uploaded securely!";;
                     ret signed_url
                 | None => ret ""
                 end;
               let resource_data :=
                 {| title := title; description := description;
                    category := category_label (w_category ws);
                    owner := user_email; file_url := file_url;
                    status := "available"; timestamp := SERVER_TIMESTAMP |} in
               db_add resource_data;;
               ai_result ← process_resource_with_agents resource_data;
               message st_success "Resource posted successfully!";;
               message st_info ai_result) w
        | _ => ret tt w
        end
    end.

(** *** Search and view (lines 176-208) *)

(** The test of line 185. *)
Definition shown (search_query : string) (data : resource) : bool :=
  let search_text :=
    lower (title data +:+ " " +:+ description data +:+ " " +:+ category data) in
  str_in (lower search_query) search_text || falsy search_query.

Definition is_image_url (url : string) : bool :=
  endswith (lower url) ".jpg" || endswith (lower url) ".jpeg"
  || endswith (lower url) ".png".

Definition show_file (data : resource) : M unit :=
  if falsy (file_url data) then ret tt
  else if is_image_url (file_url data) then emit (EvImage (file_url data))
  else emit (EvDownloadLink (file_url data)).

Definition request_button (c : click) (id : string) : M unit :=
  match c with
  | ClickRequest clicked =>
      if bool_decide (clicked = id) then
        db_update_status id "requested";;
        message st_success "Request sent!";;
        halt ScriptRerun
      else ret tt
  | _ => ret tt
  end.

(** The loop of lines 181-203; the result is the final value of [found]. *)
Fixpoint show_resources (search_query : string) (c : click)
    (docs : list (string * resource)) (found : bool) : M bool :=
  match docs with
  | [] => ret found
  | (id, data) :: rest =>
      if shown search_query data then
        emit (EvCard id data);;
        show_file data;;
        request_button c id;;
        show_resources search_query c rest true
      else show_resources search_query c rest found
  end.

Definition search_section (ws : widgets) (c : click) : M unit :=
  let search_query := w_search_query ws in
  docs ← db_where_status "available";
  found ← show_resources search_query c docs false;
  if negb found && negb (falsy search_query) then
    message st_info "No resources found matching your search."
  else if falsy search_query then
    message st_info "Tip: Use the search box above to filter resources."
  else ret tt.

Definition available_docs (w : world) : list (string * resource) :=
  filter (λ kv, status kv.2 = "available") (map_to_list (resources w)).

(** What line 194-198 shows for the attached file. *)
Definition file_events (data : resource) : list event :=
  if falsy (file_url data) then []
  else if is_image_url (file_url data) then [EvImage (file_url data)]
  else [EvDownloadLink (file_url data)].

(** What the loop shows when no request button was pressed. *)
Fixpoint render (search_query : string) (docs : list (string * resource))
    : list event :=
  match docs with
  | [] => []
  | (id, data) :: rest =>
      if shown search_query data then
        EvCard id data :: file_events data ++ render search_query rest
      else render search_query rest
  end.

(** The closing message of lines 205-208. *)
Definition closing_events (search_query : string) (found : bool) : list event :=
  if negb found && negb (falsy search_query) then
    [EvMessage st_info "No resources found matching your search."]
  else if falsy search_query then
    [EvMessage st_info "Tip: Use the search box above to filter resources."]
  else [].

(** *** One run of the script, and one interaction *)

Definition app (ws : widgets) (c : click) : M unit :=
  if has_gemini_api_key sv then
    auth_section ws c;;
    post_section ws c;;
    search_section ws c
  else
    message st_error
      "⚠️ Please add your Gemini API key to .streamlit/secrets.toml";;
    halt ScriptStop.

(** A rerun request starts the script again with no button pressed.  The
    restarted run is given the same widget values here; Streamlit keeps the
    value of a widget that the interrupted run had rendered (the search box,
    for the rerun of line 203), and may hand its default to one it had not
    (the search box, for the reruns of lines 105 and 117).  The properties
    stated over [interact] do not depend on the query the restarted run
    reads, except where the interrupted run had rendered the search box. *)
Definition interact (ws : widgets) (c : click) : M unit :=
  fun w =>
    match app ws c w with
    | (Halt ScriptRerun, w') => app ws NoClick w'
    | other => other
    end.

End App.

(** ** Notions used in the statements *)

(** [token] occurs somewhere in [text]. *)
Definition contains (token text : string) : Prop :=
  ∃ before after, text = before +:+ token +:+ after.

(** How a pipeline result reads to the submitter. *)
Inductive classification := approved | rejected | agent_error.

Definition classify (message : string) : classification :=
  if String.prefix "❌ Rejected: " message then rejected
  else if String.prefix "✅ Approved!" message then approved
  else agent_error.

Definition classify_outcome (o : outcome string) : option classification :=
  match o with
  | Return message => Some (classify message)
  | _ => None
  end.

(** The dictionary built at lines 155-163 when no file is attached. *)
Definition posted_resource (ws : widgets) (user_email : string) : resource :=
  {| title := w_title ws; description := w_description ws;
     category := category_label (w_category ws); owner := user_email;
     file_url := ""; status := "available"; timestamp := SERVER_TIMESTAMP |}.

(** The document the store holds after the [add]. *)
Definition stored_resource (ws : widgets) (user_email : string) (w : world)
    : resource :=
  set_timestamp (ServerTime (clock w)) (posted_resource ws user_email).

Definition name_error : string := "name 'timedelta' is not defined".

Definition is_request (c : click) : bool :=
  match c with ClickRequest _ => true | _ => false end.

(** The three things a run can do to the collection: nothing, add one valid
    listing under an unused identifier, or mark one available listing as
    requested. *)
Definition store_step (m m' : gmap string resource) : Prop :=
  m' = m
  ∨ (∃ id d, m !! id = None ∧ m' = <[id := d]> m
             ∧ title d ≠ "" ∧ description d ≠ "" ∧ status d = "available")
  ∨ (∃ id d, m !! id = Some d ∧ status d = "available"
             ∧ m' = <[id := set_status "requested" d]> m).

(** One user interaction: what the services answer during it, the widget
    values, and the button pressed. *)
Record interaction := {
  on_services : services;
  on_widgets : widgets;
  on_click : click;
}.

(** The world after a sequence of interactions, oldest first. *)
Definition run_all (lower : string → string)
    (str_of_resource : resource → string)
    (steps : list interaction) (w : world) : world :=
  foldl
    (λ w i,
       (interact lower str_of_resource (on_services i) (on_widgets i)
          (on_click i) w).2)
    w steps.

(** The submitted form lacks a required field: the post form (shown to a
    logged-in user) without title or description, or the login form (shown
    otherwise) without email or password. *)
Definition missing_required (ws : widgets) (c : click) (w : world) : bool :=
  match c, session_user w with
  | ClickPost, Some _ => falsy (w_title ws) || falsy (w_description ws)
  | ClickSubmit, None => falsy (w_email ws) || falsy (w_password ws)
  | _, _ => false
  end.

Definition validation_error (c : click) : string :=
  match c with
  | ClickPost => "Title and description are required."
  | _ => "Please fill both fields"
  end.

(** No event of the list writes to a service, calls the identity provider or
    calls the model. *)
Definition untouched (evs : list event) : bool :=
  forallb (λ e, negb (touches_service e)) evs.

(** ** Notions used in the further properties *)

(** The message the login form shows for a failure of the identity provider
    (lines 106-112). *)
Definition identity_error_message (e : string) : string :=
  if str_in "EMAIL_ALREADY_EXISTS" e then
    "Email already registered. Try logging in."
  else if str_in "INVALID_EMAIL" e then "Invalid email format."
  else "Error: " +:+ e.

(** The widget values with another password typed in. *)
Definition with_password (password : string) (ws : widgets) : widgets :=
  {| w_choice := w_choice ws; w_email := w_email ws; w_password := password;
     w_title := w_title ws; w_description := w_description ws;
     w_category := w_category ws; w_uploaded_file := w_uploaded_file ws;
     w_search_query := w_search_query ws |}.

(** What a run started by button [c], with [u] in the session, may do
    outside the script: model calls, uploads and additions only from the post
    button of a logged-in user; identity calls only from the login form of a
    logged-out visitor; an update only of the listing whose request button
    was pressed, and only to "requested"; a signed URL never. *)
Definition permitted (c : click) (u : option string) (e : event) : bool :=
  match e with
  | EvAgentRun _ _ | EvDbAdd _ _ | EvBlobUpload _ _ =>
      bool_decide (c = ClickPost) && bool_decide (is_Some u)
  | EvCreateUser _ _ | EvGetUserByEmail _ =>
      bool_decide (c = ClickSubmit) && bool_decide (u = None)
  | EvDbUpdate id s =>
      bool_decide (c = ClickRequest id) && bool_decide (s = "requested")
  | EvSignedUrl _ _ _ => false
  | EvDbQuery _ | EvMessage _ _ | EvCard _ _ | EvImage _
  | EvDownloadLink _ => true
  end.

(** The box line 114 shows to a logged-in user. *)
Definition greeting (u : option string) : list event :=
  match u with
  | Some user_email =>
      [EvMessage st_success ("Logged in as: " +:+ user_email)]
  | None => []
  end.

(** What the search section does in a run where no request button was
    pressed: the query, the cards, the closing message. *)
Definition search_page (lower : string → string) (search_query : string)
    (w : world) : list event :=
  EvDbQuery "available"
  :: render lower search_query (available_docs w)
  ++ closing_events search_query
       (existsb (λ kv, shown lower search_query kv.2) (available_docs w)).

(** The key under which the post form stores an uploaded file (line 139). *)
Definition blob_key (user_email file_name : string) : string :=
  split_head "@"%char user_email +:+ "_" +:+ file_name.

(** The file extensions line 195 takes for images. *)
Definition image_extensions : list string := [".jpg"; ".jpeg"; ".png"].

(** ** Concrete inputs *)

Module Scenario.

(** A stand-in for [str] of the posted dictionary. *)
Definition show_resource (r : resource) : string :=
  "{'title': '" +:+ title r +:+ "', 'description': '" +:+ description r
  +:+ "', 'category': '" +:+ category r +:+ "'}".

Definition three_items : string :=
  "1. Pattern Recognition" +:+ nl +:+ "2. Deep Learning" +:+ nl
  +:+ "3. Linear Algebra notes".

(** Services whose screener answers [verdict]. *)
Definition screening (verdict : reply string) : services :=
  {| has_gemini_api_key := true;
     llm_run := λ a _,
       match a with
       | stitch_agent => Answer "Intro to ML by Andrew Ng, great condition"
       | antigravity_agent => verdict
       | gemini_agent => Answer three_items
       end;
     create_user := λ _ _, Answer tt;
     get_user_by_email := λ _, Answer tt;
     generate_signed_url := λ filename _ _, "https://storage/" +:+ filename |}.

Definition approving : services := screening (Answer "APPROVED - no issues").

Definition rejecting : services :=
  screening (Answer "REJECTED - contains phone number").

Definition screener_down : services := screening (Failure "503 unavailable").

(** Services whose normalizer times out. *)
Definition normalizer_down : services :=
  {| has_gemini_api_key := true;
     llm_run := λ a _,
       match a with
       | stitch_agent => Failure "timeout"
       | _ => Answer "unused"
       end;
     create_user := λ _ _, Answer tt;
     get_user_by_email := λ _, Answer tt;
     generate_signed_url := λ filename _ _, "https://storage/" +:+ filename |}.

Definition ml_book : resource :=
  {| title := "Intro to ML by Andrew Ng"; description := "great condition";
     category := "Books"; owner := "ann@college.edu"; file_url := "";
     status := "available"; timestamp := SERVER_TIMESTAMP |}.

Definition taken_notes : resource :=
  {| title := "Physics notes"; description := "semester 2";
     category := "Notes"; owner := "bob@college.edu"; file_url := "";
     status := "requested"; timestamp := ServerTime 3 |}.

Definition logged_out : world :=
  {| session_user := None; resources := ∅; bucket := ∅; clock := 0;
     trace := [] |}.

Definition logged_in : world :=
  {| session_user := Some "ann@college.edu"; resources := ∅; bucket := ∅;
     clock := 0; trace := [] |}.

(** A collection with one requested listing. *)
Definition with_taken_notes : world :=
  {| session_user := Some "ann@college.edu";
     resources := {[ "n1" := taken_notes ]}; bucket := ∅; clock := 4;
     trace := [] |}.

Definition book_form : widgets :=
  {| w_choice := Login; w_email := ""; w_password := "";
     w_title := "Intro to ML by Andrew Ng";
     w_description := "great condition"; w_category := Books;
     w_uploaded_file := None; w_search_query := "" |}.

Definition book_form_with_photo : widgets :=
  {| w_choice := Login; w_email := ""; w_password := "";
     w_title := "Intro to ML by Andrew Ng";
     w_description := "great condition"; w_category := Books;
     w_uploaded_file :=
       Some {| upload_name := "cover.png"; upload_bytes := "PNG" |};
     w_search_query := "" |}.

Definition empty_form : widgets :=
  {| w_choice := Login; w_email := ""; w_password := ""; w_title := "";
     w_description := "great condition"; w_category := Books;
     w_uploaded_file := None; w_search_query := "" |}.

Definition searching_ml : widgets :=
  {| w_choice := Login; w_email := ""; w_password := ""; w_title := "";
     w_description := ""; w_category := Books; w_uploaded_file := None;
     w_search_query := "ANDREW" |}.

Definition cleaned_text : string := "Intro to ML by Andrew Ng, great condition".

(** Services whose identity provider fails with [e]. *)
Definition identity_failing (e : string) : services :=
  {| has_gemini_api_key := true;
     llm_run := llm_run approving;
     create_user := λ _ _, Failure e;
     get_user_by_email := λ _, Failure e;
     generate_signed_url := generate_signed_url approving |}.

Definition login_form : widgets :=
  {| w_choice := Login; w_email := "ann@college.edu"; w_password := "secret";
     w_title := ""; w_description := ""; w_category := Books;
     w_uploaded_file := None; w_search_query := "" |}.

Definition signup_form : widgets :=
  {| w_choice := Signup; w_email := "ann@college.edu"; w_password := "secret";
     w_title := ""; w_description := ""; w_category := Books;
     w_uploaded_file := None; w_search_query := "" |}.

Definition stored_book : resource :=
  {| title := "Intro to ML by Andrew Ng"; description := "great condition";
     category := "Books"; owner := "ann@college.edu"; file_url := "";
     status := "available"; timestamp := ServerTime 0 |}.

(** A collection with one available and one requested listing, seen by a
    visitor who is not logged in. *)
Definition with_book : world :=
  {| session_user := None;
     resources := {[ "b1" := stored_book; "n1" := taken_notes ]};
     bucket := ∅; clock := 4; trace := [] |}.



(** The logged-in owner looking at the collection of [with_book]. *)
Definition ann_with_book : world :=
  {| session_user := Some "ann@college.edu";
     resources := {[ "b1" := stored_book; "n1" := taken_notes ]};
     bucket := ∅; clock := 4; trace := [] |}.

Definition photo_form_of_other_ann : widgets :=
  {| w_choice := Login; w_email := ""; w_password := "";
     w_title := "Lab coat"; w_description := "size M";
     w_category := LabEquipment;
     w_uploaded_file :=
       Some {| upload_name := "cover.png"; upload_bytes := "OTHER" |};
     w_search_query := "" |}.

End Scenario.

(** * Properties *)

(** ** Substring search *)

Lemma append_nil_l (s : string) : "" +:+ s = s.
Proof. done. Qed.

Lemma append_cons (c : ascii) (s t : string) :
  String c s +:+ t = String c (s +:+ t).
Proof. done. Qed.

Lemma append_empty_r (s : string) : s +:+ "" = s.
Proof.
  induction s as [|c s IH]; [done|]. by rewrite append_cons, IH.
Qed.

Lemma prefix_true_iff (p s : string) :
  String.prefix p s = true ↔ ∃ after, s = p +:+ after.
Proof.
  revert p. induction s as [|d s IH]; intros [|c p]; simpl.
  - split; [by exists "" | done].
  - split; [done | intros [after H]; discriminate H].
  - split; [intros _; by eexists | done].
  - setoid_rewrite append_cons.
    destruct (ascii_dec c d) as [->|Hne].
    + rewrite IH. split; intros [after H]; exists after.
      * by rewrite H.
      * by injection H.
    + split; [done | intros [after H]; injection H; congruence].
Qed.

Lemma str_in_nil (token : string) :
  str_in token "" = String.prefix token "" || false.
Proof. done. Qed.

Lemma str_in_cons (token : string) (c : ascii) (text : string) :
  str_in token (String c text)
  = String.prefix token (String c text) || str_in token text.
Proof. done. Qed.

Lemma str_in_true_iff (token text : string) :
  str_in token text = true ↔ contains token text.
Proof.
  unfold contains. induction text as [|c text IH].
  - rewrite str_in_nil, orb_false_r, prefix_true_iff. split.
    + intros [after H]. by exists "", after.
    + intros [[|d before] [after H]]; [by exists after | discriminate H].
  - rewrite str_in_cons, orb_true_iff, prefix_true_iff, IH. split.
    + intros [[after H]|[before [after H]]].
      * by exists "", after.
      * exists (String c before), after. by rewrite append_cons, H.
    + intros [[|d before] [after H]].
      * left. by exists after.
      * right. exists before, after. rewrite append_cons in H. by injection H.
Qed.

Lemma str_in_false_iff (token text : string) :
  str_in token text = false ↔ ¬ contains token text.
Proof. rewrite <- str_in_true_iff. by destruct (str_in token text). Qed.

Lemma contains_app_r (token before : string) : contains token (before +:+ token).
Proof. exists before, "". by rewrite append_empty_r. Qed.

(** *** Lowercasing the ASCII letters *)

Lemma ascii_lower_app (s t : string) :
  ascii_lower (s +:+ t) = ascii_lower s +:+ ascii_lower t.
Proof.
  induction s as [|c s IH]; [done|].
  rewrite append_cons. simpl. by rewrite IH.
Qed.

Lemma ascii_lower_split (s a b : string) :
  ascii_lower s = a +:+ b →
  ∃ s1 s2, s = s1 +:+ s2 ∧ ascii_lower s1 = a ∧ ascii_lower s2 = b.
Proof.
  revert s. induction a as [|c a IH]; intros s H.
  - by exists "", s.
  - destruct s as [|d s]; [discriminate H|].
    rewrite append_cons in H. simpl in H. injection H as Hc Hrest.
    destruct (IH s Hrest) as (s1 & s2 & -> & H1 & H2).
    exists (String d s1), s2. simpl. by rewrite Hc, H1.
Qed.

(** With that lowering, finding a token in the lowered text is finding, in
    the text itself, a word that lowers to the token: the search ignores the
    case of the letters. *)
Lemma contains_ascii_lower_iff (token text : string) :
  contains token (ascii_lower text)
  ↔ ∃ before word after,
      text = before +:+ word +:+ after ∧ ascii_lower word = token.
Proof.
  split.
  - intros (a & b & H).
    destruct (ascii_lower_split _ _ _ H) as (before & rest & -> & _ & Hrest).
    destruct (ascii_lower_split _ _ _ Hrest) as (word & after & -> & Hw & _).
    by exists before, word, after.
  - intros (before & word & after & -> & <-).
    exists (ascii_lower before), (ascii_lower after).
    by rewrite !ascii_lower_app.
Qed.

(** ** Traces *)

Lemma log_log (evs1 evs2 : list event) (w : world) :
  log evs2 (log evs1 w) = log (evs1 ++ evs2) w.
Proof. unfold log. simpl. by rewrite app_assoc. Qed.

Lemma log_nil (w : world) : log [] w = w.
Proof. destruct w. unfold log. simpl. by rewrite app_nil_r. Qed.

Lemma runs_of_app (a : agent) (tr1 tr2 : list event) :
  runs_of a (tr1 ++ tr2) = runs_of a tr1 ++ runs_of a tr2.
Proof.
  induction tr1 as [|e tr1 IH]; [done|].
  destruct e; simpl; try done. case_bool_decide; simpl; by rewrite IH.
Qed.

(** ** The moderation pipeline *)

Section Pipeline.

Variable lower : string → string.
Variable str_of_resource : resource → string.
Variable sv : services.

Abbreviation pipeline := (process_resource_with_agents lower str_of_resource sv).

Lemma pipeline_run (resource_data : resource) (w : world) :
  pipeline resource_data w =
  (Return (pipeline_message lower str_of_resource sv resource_data),
   log (pipeline_events lower str_of_resource sv resource_data) w).
Proof.
  unfold process_resource_with_agents, pipeline_message, pipeline_events,
    try_except, agent_run, mbind, M_bind, bind, emit, of_reply, ret, raise.
  simpl.
  destruct (llm_run sv stitch_agent _) as [cleaned|e]; simpl; [|done].
  destruct (llm_run sv antigravity_agent _) as [safety|e]; simpl;
    rewrite ?log_log; simpl; [|done].
  destruct (str_in "rejected" (lower safety)); simpl; [done|].
  destruct (llm_run sv gemini_agent _) as [recs|e]; simpl;
    rewrite ?log_log; by simpl.
Qed.

(** C1: when the screener's output, lowercased, contains "rejected"
    anywhere, the pipeline returns "❌ Rejected: " followed by the screener's
    whole output, and no call to the recommendation agent is made: the run
    adds exactly the normalizer call and the screener call to the trace. *)
Theorem rejected_output_stops_pipeline
    (resource_data : resource) (w : world) (cleaned safety : string) :
  llm_run sv stitch_agent (str_of_resource resource_data) = Answer cleaned →
  llm_run sv antigravity_agent cleaned = Answer safety →
  contains "rejected" (lower safety) →
  (pipeline resource_data w).1 = Return ("❌ Rejected: " +:+ safety)
  ∧ runs_of gemini_agent (trace (pipeline resource_data w).2)
    = runs_of gemini_agent (trace w)
  ∧ trace (pipeline resource_data w).2
    = trace w ++ [EvAgentRun stitch_agent (str_of_resource resource_data);
                  EvAgentRun antigravity_agent cleaned].
Proof.
  intros Hstitch Hscreen Hrej. apply str_in_true_iff in Hrej.
  rewrite pipeline_run. unfold pipeline_message, pipeline_events. simpl.
  rewrite Hstitch, Hscreen, Hrej. simpl.
  rewrite runs_of_app. simpl. by rewrite app_nil_r.
Qed.

(** C2: when the screener's output, lowercased, does not contain "rejected",
    the recommendation agent is called exactly once, on the normalizer's
    cleaned text; the text it answers is returned verbatim at the end of the
    approval message (and if it fails instead, its error is wrapped). *)
Theorem approved_output_runs_recommender_once
    (resource_data : resource) (w : world) (cleaned safety : string) :
  llm_run sv stitch_agent (str_of_resource resource_data) = Answer cleaned →
  llm_run sv antigravity_agent cleaned = Answer safety →
  ¬ contains "rejected" (lower safety) →
  runs_of gemini_agent (trace (pipeline resource_data w).2)
  = runs_of gemini_agent (trace w) ++ [cleaned]
  ∧ match llm_run sv gemini_agent cleaned with
    | Answer recommendations =>
        (pipeline resource_data w).1
        = Return ("✅ Approved!" +:+ nl +:+ nl +:+ "**AI Recommendations:**"
                  +:+ nl +:+ recommendations)
        ∧ ∃ message, (pipeline resource_data w).1 = Return message
                     ∧ contains recommendations message
    | Failure e =>
        (pipeline resource_data w).1 = Return ("⚠️ Agent error: " +:+ e)
    end.
Proof.
  intros Hstitch Hscreen Hok. apply str_in_false_iff in Hok.
  rewrite pipeline_run. unfold pipeline_message, pipeline_events. simpl.
  rewrite Hstitch, Hscreen, Hok. simpl.
  rewrite runs_of_app. simpl. split; [done|].
  destruct (llm_run sv gemini_agent cleaned) as [recs|e]; [|done].
  split; [done|]. eexists. split; [done|].
  apply (contains_app_r recs
           ("✅ Approved!" +:+ nl +:+ nl +:+ "**AI Recommendations:**" +:+ nl)).
Qed.

(** C3: when the normalizer fails, the pipeline does not raise: it returns
    "⚠️ Agent error: " followed by the error text, and the only agent call of
    the run is the normalizer's, so neither the screener nor the recommender
    is called. *)
Theorem normalizer_failure_is_wrapped
    (resource_data : resource) (w : world) (e : string) :
  llm_run sv stitch_agent (str_of_resource resource_data) = Failure e →
  (pipeline resource_data w).1 = Return ("⚠️ Agent error: " +:+ e)
  ∧ runs_of antigravity_agent (trace (pipeline resource_data w).2)
    = runs_of antigravity_agent (trace w)
  ∧ runs_of gemini_agent (trace (pipeline resource_data w).2)
    = runs_of gemini_agent (trace w)
  ∧ trace (pipeline resource_data w).2
    = trace w ++ [EvAgentRun stitch_agent (str_of_resource resource_data)].
Proof.
  intros Hstitch. rewrite pipeline_run.
  unfold pipeline_message, pipeline_events. simpl. rewrite Hstitch.
  rewrite !runs_of_app. simpl. by rewrite !app_nil_r.
Qed.

(** C4: when the screener fails after the normalizer answered, the pipeline
    returns the wrapped error message and the recommender is not called. *)
Theorem screener_failure_is_wrapped
    (resource_data : resource) (w : world) (cleaned e : string) :
  llm_run sv stitch_agent (str_of_resource resource_data) = Answer cleaned →
  llm_run sv antigravity_agent cleaned = Failure e →
  (pipeline resource_data w).1 = Return ("⚠️ Agent error: " +:+ e)
  ∧ runs_of gemini_agent (trace (pipeline resource_data w).2)
    = runs_of gemini_agent (trace w)
  ∧ trace (pipeline resource_data w).2
    = trace w ++ [EvAgentRun stitch_agent (str_of_resource resource_data);
                  EvAgentRun antigravity_agent cleaned].
Proof.
  intros Hstitch Hscreen. rewrite pipeline_run.
  unfold pipeline_message, pipeline_events. simpl. rewrite Hstitch, Hscreen.
  rewrite runs_of_app. simpl. by rewrite app_nil_r.
Qed.

(** The pipeline changes nothing but the trace. *)
Lemma pipeline_frame (resource_data : resource) (w : world) :
  resources (pipeline resource_data w).2 = resources w
  ∧ bucket (pipeline resource_data w).2 = bucket w
  ∧ session_user (pipeline resource_data w).2 = session_user w.
Proof. by rewrite pipeline_run. Qed.

(** C8: with the three stages stubbed by fixed functions, running the
    pipeline a second time on the same input, from the world the first run
    left (or from any other world), returns the same message and so the same
    classification. *)
Theorem pipeline_twice_same_classification
    (resource_data : resource) (w other : world) :
  let first := pipeline resource_data w in
  let second := pipeline resource_data first.2 in
  second.1 = first.1
  ∧ classify_outcome second.1 = classify_outcome first.1
  ∧ (pipeline resource_data other).1 = first.1
  ∧ classify_outcome first.1 = Some (classify (pipeline_message lower str_of_resource sv resource_data)).
Proof. simpl. by rewrite !pipeline_run. Qed.

End Pipeline.

(** ** Posting a resource *)

Section Posting.

Variable lower : string → string.
Variable str_of_resource : resource → string.

Abbreviation post := (post_section lower str_of_resource).

Lemma post_not_logged_in sv ws c w :
  session_user w = None → post sv ws c w = (Return tt, w).
Proof. intros H. unfold post_section. by rewrite H. Qed.

Lemma post_other_click sv ws c w :
  c ≠ ClickPost → post sv ws c w = (Return tt, w).
Proof.
  intros H. unfold post_section.
  destruct (session_user w); [|done]. by destruct c.
Qed.

Lemma post_missing_field sv ws w user_email :
  session_user w = Some user_email →
  falsy (w_title ws) || falsy (w_description ws) = true →
  post sv ws ClickPost w
  = (Return tt,
     log [EvMessage st_error "Title and description are required."] w).
Proof. intros Hu Hf. unfold post_section. by rewrite Hu, Hf. Qed.

Lemma post_with_file sv ws w user_email f :
  session_user w = Some user_email →
  falsy (w_title ws) || falsy (w_description ws) = false →
  w_uploaded_file ws = Some f →
  post sv ws ClickPost w
  = (Raise name_error,
     let filename := split_head "@" user_email +:+ "_" +:+ upload_name f in
     log [EvBlobUpload filename (upload_bytes f)]
       (with_bucket (<[filename := upload_bytes f]> (bucket w)) w)).
Proof. intros Hu Hf Hfile. unfold post_section. by rewrite Hu, Hf, Hfile. Qed.

Lemma post_without_file sv ws w user_email :
  session_user w = Some user_email →
  falsy (w_title ws) || falsy (w_description ws) = false →
  w_uploaded_file ws = None →
  post sv ws ClickPost w
  = (Return tt,
     let id := fresh (dom (resources w)) in
     let stored := stored_resource ws user_email w in
     let resource_data := posted_resource ws user_email in
     log ([EvDbAdd id stored]
          ++ pipeline_events lower str_of_resource sv resource_data
          ++ [EvMessage st_success "Resource posted successfully!";
              EvMessage st_info
                (pipeline_message lower str_of_resource sv resource_data)])
       (tick (with_resources (<[id := stored]> (resources w)) w))).
Proof.
  intros Hu Hf Hfile. unfold post_section. rewrite Hu, Hf, Hfile.
  unfold mbind, M_bind, bind, db_add, ret. simpl.
  rewrite pipeline_run. unfold message, emit. simpl.
  by rewrite !log_log.
Qed.

(** C5 (the code departs from the claim when a file is attached): for a
    valid submission of a logged-in user the pipeline itself never changes
    the collection.  Without a file the handler is: the [add] of the form's
    listing under an unused identifier, then the pipeline run from the world
    the [add] left, then the two messages; so the listing is in the
    collection before the first agent is called, and the collection the
    handler leaves is the old one plus that listing whatever the agents
    answer.  With a file the handler stops at the [NameError] of line 146
    before the [add] and before the pipeline: nothing is stored and no agent
    is called. *)
Theorem listing_persisted_before_pipeline
    (sv sv' : services) (ws : widgets) (w : world) (user_email : string) :
  session_user w = Some user_email →
  falsy (w_title ws) || falsy (w_description ws) = false →
  let resource_data := posted_resource ws user_email in
  let id := fresh (dom (resources w)) in
  let stored := stored_resource ws user_email w in
  (∀ rd w0,
     resources (process_resource_with_agents lower str_of_resource sv rd w0).2
     = resources w0)
  ∧ match w_uploaded_file ws with
    | None =>
        let added := (db_add resource_data w).2 in
        let piped :=
          process_resource_with_agents lower str_of_resource sv resource_data
            added in
        resources w !! id = None
        ∧ resources added = <[id := stored]> (resources w)
        ∧ trace added = trace w ++ [EvDbAdd id stored]
        ∧ (∃ ai_result,
             piped.1 = Return ai_result
             ∧ post sv ws ClickPost w
               = (Return tt,
                  log [EvMessage st_success "Resource posted successfully!";
                       EvMessage st_info ai_result] piped.2))
        ∧ resources (post sv ws ClickPost w).2 = <[id := stored]> (resources w)
        ∧ resources (post sv' ws ClickPost w).2
          = resources (post sv ws ClickPost w).2
    | Some f =>
        (post sv ws ClickPost w).1 = Raise name_error
        ∧ resources (post sv ws ClickPost w).2 = resources w
        ∧ ∀ a, runs_of a (trace (post sv ws ClickPost w).2)
               = runs_of a (trace w)
    end.
Proof.
  intros Hu Hf. cbv zeta.
  split; [intros rd w0; apply pipeline_frame|].
  destruct (w_uploaded_file ws) as [f|] eqn:Hfile.
  - rewrite (post_with_file _ _ _ user_email f) by done. cbv zeta.
    split; [done|]. split; [done|].
    intros a. cbn [snd]. unfold log at 1. cbn [trace].
    rewrite runs_of_app. simpl. by rewrite app_nil_r.
  - rewrite !(post_without_file _ _ _ user_email) by done. cbv zeta.
    split; [apply not_elem_of_dom, is_fresh|].
    split; [done|]. split; [done|].
    split; [|by split].
    rewrite pipeline_run. eexists. split; [done|].
    cbn [snd]. unfold db_add. cbn [snd].
    by rewrite !log_log.
Qed.

(** C6 (the code departs from the claim): a valid submission with a file
    uploads the file and then stops with a [NameError], because the script
    never binds [timedelta]; no signed URL is requested and no listing is
    stored. *)
Theorem upload_branch_raises_name_error
    (sv : services) (ws : widgets) (w : world) (user_email : string)
    (f : upload) :
  session_user w = Some user_email →
  falsy (w_title ws) || falsy (w_description ws) = false →
  w_uploaded_file ws = Some f →
  let filename := split_head "@" user_email +:+ "_" +:+ upload_name f in
  (post sv ws ClickPost w).1 = Raise name_error
  ∧ bucket (post sv ws ClickPost w).2 !! filename = Some (upload_bytes f)
  ∧ trace (post sv ws ClickPost w).2
    = trace w ++ [EvBlobUpload filename (upload_bytes f)]
  ∧ resources (post sv ws ClickPost w).2 = resources w.
Proof.
  intros Hu Hf Hfile. rewrite (post_with_file _ _ _ user_email f) by done.
  simpl. by rewrite lookup_insert_eq.
Qed.

End Posting.

(** ** Searching and requesting *)

Section Searching.

Variable lower : string → string.

Lemma show_file_run data w :
  show_file lower data w = (Return tt, log (file_events lower data) w).
Proof.
  unfold show_file, file_events.
  destruct (falsy (file_url data)); [by rewrite log_nil|].
  by destruct (is_image_url lower (file_url data)).
Qed.

Lemma request_button_idle c id w :
  is_request c = false → request_button c id w = (Return tt, w).
Proof. by destruct c. Qed.

Lemma show_resources_idle search_query c docs found w :
  is_request c = false →
  show_resources lower search_query c docs found w
  = (Return (found || existsb (λ kv, shown lower search_query kv.2) docs),
     log (render lower search_query docs) w).
Proof.
  intros Hc. revert found w.
  induction docs as [|[id data] docs IH]; intros found w; simpl.
  - by rewrite orb_false_r, log_nil.
  - destruct (shown lower search_query data) eqn:Hs; simpl.
    + unfold mbind, M_bind, bind, emit. simpl.
      rewrite show_file_run, request_button_idle by done.
      rewrite IH, !log_log. simpl. by rewrite orb_true_r.
    + by rewrite IH.
Qed.

Lemma search_section_idle ws c w :
  is_request c = false →
  search_section lower ws c w
  = (Return tt,
     let q := w_search_query ws in
     log ([EvDbQuery "available"] ++ render lower q (available_docs w)
          ++ closing_events q
               (existsb (λ kv, shown lower q kv.2) (available_docs w)))
       w).
Proof.
  intros Hc. unfold search_section, mbind, M_bind, bind, db_where_status.
  simpl. rewrite show_resources_idle by done. simpl.
  fold (available_docs w). unfold closing_events, message, emit, ret.
  set (found := existsb _ _).
  destruct (negb found && negb (falsy (w_search_query ws)));
    [by rewrite !log_log|].
  destruct (falsy (w_search_query ws)); rewrite !log_log; [done|].
  by rewrite app_nil_r.
Qed.

Lemma card_in_file_events id data data' :
  EvCard id data ∉ file_events lower data'.
Proof.
  unfold file_events.
  destruct (falsy _); [apply not_elem_of_nil|].
  destruct (is_image_url _ _); intros H; apply list_elem_of_singleton in H;
    discriminate H.
Qed.

Lemma card_in_render search_query docs id data :
  EvCard id data ∈ render lower search_query docs
  ↔ (id, data) ∈ docs ∧ shown lower search_query data = true.
Proof.
  induction docs as [|[id' data'] docs IH]; simpl.
  - split; [intros H | intros [H _]]; by apply elem_of_nil in H.
  - destruct (shown lower search_query data') eqn:Hs.
    + rewrite elem_of_cons, elem_of_app, IH, elem_of_cons. split.
      * intros [H|[H|[H1 H2]]].
        -- injection H as -> ->. by split; [left|].
        -- by apply card_in_file_events in H.
        -- by split; [right|].
      * intros [[H|H] Hshown].
        -- injection H as -> ->. by left.
        -- right. right. by split.
    + rewrite IH, elem_of_cons. split.
      * intros [H1 H2]. by split; [right|].
      * intros [[H|H] Hshown]; [|by split].
        injection H as -> ->. congruence.
Qed.

Lemma card_in_closing id data search_query found :
  EvCard id data ∉ closing_events search_query found.
Proof.
  unfold closing_events.
  destruct (negb found && _).
  { intros H. apply list_elem_of_singleton in H. discriminate H. }
  destruct (falsy _); [|apply not_elem_of_nil].
  intros H. apply list_elem_of_singleton in H. discriminate H.
Qed.

Lemma elem_of_available_docs id data w :
  (id, data) ∈ available_docs w
  ↔ resources w !! id = Some data ∧ status data = "available".
Proof.
  unfold available_docs. rewrite list_elem_of_filter, elem_of_map_to_list.
  simpl. tauto.
Qed.

Lemma falsy_true_iff (s : string) : falsy s = true ↔ s = "".
Proof. by destruct s. Qed.

Lemma falsy_false_iff (s : string) : falsy s = false ↔ s ≠ "".
Proof. by destruct s. Qed.


End Searching.

(** ** How a run changes the collection *)

Lemma alter_present (f : resource → resource) id d (m : gmap string resource) :
  m !! id = Some d → alter f id m = <[id := f d]> m.
Proof.
  intros H. apply map_eq. intros j. rewrite lookup_alter, lookup_insert.
  destruct (decide (id = j)) as [->|]; [by rewrite H|done].
Qed.

Section Requesting.

Variable lower : string → string.

Lemma request_button_other c id w :
  c ≠ ClickRequest id → request_button c id w = (Return tt, w).
Proof.
  intros H. destruct c as [| | | |clicked]; try done. simpl.
  case_bool_decide; [congruence|done].
Qed.

Lemma request_button_clicked id d w :
  resources w !! id = Some d →
  request_button (ClickRequest id) id w
  = (Halt ScriptRerun,
     log [EvDbUpdate id "requested"; EvMessage st_success "Request sent!"]
       (with_resources (<[id := set_status "requested" d]> (resources w)) w)).
Proof.
  intros H. simpl. rewrite bool_decide_eq_true_2 by done.
  unfold mbind, M_bind, bind, db_update_status. rewrite H. simpl.
  by rewrite log_log, (alter_present _ _ d).
Qed.

(** The loop changes the collection at most once, by marking as requested a
    listing that the query returned as available; nothing else in the world
    but the trace changes. *)
Lemma show_resources_store search_query c docs found w :
  (∀ id d, (id, d) ∈ docs →
           resources w !! id = Some d ∧ status d = "available") →
  let w' := (show_resources lower search_query c docs found w).2 in
  store_step (resources w) (resources w')
  ∧ session_user w' = session_user w ∧ bucket w' = bucket w.
Proof.
  revert found w. induction docs as [|[id data] docs IH]; intros found w Hdocs.
  - simpl. split; [by left|done].
  - simpl. destruct (shown lower search_query data) eqn:Hs; cycle 1.
    { apply IH. intros id' d' H. apply Hdocs. by right. }
    unfold mbind, M_bind, bind, emit. simpl. rewrite show_file_run.
    destruct (decide (c = ClickRequest id)) as [->|Hc].
    + destruct (Hdocs id data) as [Hlook Hav]; [by left|].
      rewrite (request_button_clicked id data) by done. simpl.
      split; [|done]. right. right. by exists id, data.
    + rewrite request_button_other by done.
      apply (IH true (log (file_events lower data) (log [EvCard id data] w))).
      intros id' d' H. apply Hdocs. by right.
Qed.

Lemma search_section_store ws c w :
  let w' := (search_section lower ws c w).2 in
  store_step (resources w) (resources w')
  ∧ session_user w' = session_user w ∧ bucket w' = bucket w.
Proof.
  unfold search_section, mbind, M_bind, bind, db_where_status. simpl.
  pose proof (show_resources_store (w_search_query ws) c
                (available_docs w) false (log [EvDbQuery "available"] w)) as H.
  simpl in H. unfold available_docs in H at 2.
  assert (∀ id d, (id, d) ∈ available_docs w →
                  resources w !! id = Some d ∧ status d = "available") as Hd.
  { intros id d Hin. by apply elem_of_available_docs in Hin. }
  specialize (H Hd).
  destruct (show_resources _ _ _ _ _) as [[found| |] w1] eqn:Hrun; simpl in *;
    try done.
  unfold message, emit, ret.
  destruct (negb found && _); simpl; [done|].
  by destruct (falsy _).
Qed.

End Requesting.

(** ** Login and signup *)

Section Authentication.

Variable sv : services.

Lemma auth_missing_field ws w :
  session_user w = None →
  falsy (w_email ws) || falsy (w_password ws) = true →
  auth_section sv ws ClickSubmit w
  = (Return tt, log [EvMessage st_error "Please fill both fields"] w).
Proof. intros Hu Hf. unfold auth_section. by rewrite Hu, Hf. Qed.

Lemma auth_logged_in ws c w user_email :
  session_user w = Some user_email →
  c ≠ ClickLogout →
  auth_section sv ws c w
  = (Return tt,
     log [EvMessage st_success ("Logged in as: " +:+ user_email)] w).
Proof. intros Hu Hc. unfold auth_section. rewrite Hu. by destruct c. Qed.

Lemma auth_logged_out_idle ws c w :
  session_user w = None →
  c ≠ ClickSubmit →
  auth_section sv ws c w = (Return tt, w).
Proof. intros Hu Hc. unfold auth_section. rewrite Hu. by destruct c. Qed.

(** The login section never writes to the collection or to the bucket. *)
Lemma auth_section_frame ws c w :
  resources (auth_section sv ws c w).2 = resources w
  ∧ bucket (auth_section sv ws c w).2 = bucket w.
Proof.
  unfold auth_section. destruct (session_user w) as [u|].
  { by destruct c. }
  destruct c; try done.
  destruct (falsy (w_email ws) || falsy (w_password ws)); [done|].
  unfold try_except, mbind, M_bind, bind, auth_create_user,
    auth_get_user_by_email, of_reply, message, emit, ret, raise.
  destruct (w_choice ws); simpl.
  - destruct (get_user_by_email sv (w_email ws)) as [[]|e]; simpl; [done|].
    by repeat (destruct (str_in _ e); simpl).
  - destruct (create_user sv (w_email ws) (w_password ws)) as [[]|e]; simpl;
      [done|].
    by repeat (destruct (str_in _ e); simpl).
Qed.

End Authentication.

(** ** Whole runs *)

Section Application.

Variable lower : string → string.
Variable str_of_resource : resource → string.

Abbreviation run_app := (app lower str_of_resource).
Abbreviation run_interact := (interact lower str_of_resource).

Lemma post_section_store sv ws c w :
  store_step (resources w)
    (resources (post_section lower str_of_resource sv ws c w).2).
Proof.
  destruct (session_user w) as [user_email|] eqn:Hu; cycle 1.
  { rewrite post_not_logged_in by done. by left. }
  destruct (decide (c = ClickPost)) as [->|Hc]; cycle 1.
  { rewrite post_other_click by done. by left. }
  destruct (falsy (w_title ws) || falsy (w_description ws)) eqn:Hf.
  { rewrite (post_missing_field _ _ _ _ _ user_email) by done. by left. }
  destruct (w_uploaded_file ws) as [f|] eqn:Hfile.
  { rewrite (post_with_file _ _ _ _ _ user_email f) by done. by left. }
  rewrite (post_without_file _ _ _ _ _ user_email) by done. simpl.
  right. left. eexists _, _. split; [apply not_elem_of_dom, is_fresh|].
  split; [done|]. apply orb_false_iff in Hf as [Ht Hd].
  by rewrite falsy_false_iff in Ht, Hd.
Qed.

Lemma search_section_idle_store ws c w :
  is_request c = false →
  resources (search_section lower ws c w).2 = resources w.
Proof. intros Hc. by rewrite search_section_idle. Qed.

Lemma app_store sv ws c w :
  store_step (resources w) (resources (run_app sv ws c w).2).
Proof.
  unfold app. destruct (has_gemini_api_key sv); [|by left].
  unfold mbind, M_bind, bind.
  pose proof (auth_section_frame sv ws c w) as [Hauth _].
  destruct (auth_section sv ws c w) as [[[]| |] w1]; simpl in Hauth; simpl;
    try (left; by rewrite Hauth).
  rewrite <- Hauth. clear Hauth w.
  destruct (decide (c = ClickPost)) as [->|Hc].
  - pose proof (post_section_store sv ws ClickPost w1) as Hpost.
    destruct (post_section _ _ _ _ _ _) as [[[]| |] w2]; simpl in *; try done.
    by rewrite search_section_idle_store.
  - rewrite post_other_click by done.
    apply search_section_store.
Qed.

Lemma app_no_click_store sv ws w :
  resources (run_app sv ws NoClick w).2 = resources w.
Proof.
  unfold app. destruct (has_gemini_api_key sv); [|done].
  unfold mbind, M_bind, bind.
  pose proof (auth_section_frame sv ws NoClick w) as [Hauth _].
  destruct (auth_section sv ws NoClick w) as [[[]| |] w1]; simpl in Hauth;
    try done.
  rewrite post_other_click by done.
  by rewrite search_section_idle_store.
Qed.

Lemma interact_store sv ws c w :
  store_step (resources w) (resources (run_interact sv ws c w).2).
Proof.
  unfold interact. pose proof (app_store sv ws c w) as H.
  destruct (run_app sv ws c w) as [[[]| |[|]] w1]; simpl in *; try done.
  by rewrite app_no_click_store.
Qed.

(** *** What a step means for one document *)

Lemma store_step_created m m' id d' :
  store_step m m' → m !! id = None → m' !! id = Some d' →
  title d' ≠ "" ∧ description d' ≠ "" ∧ status d' = "available".
Proof.
  intros [->|[(id0 & d & Hnew & -> & Ht & Hd & Hs)
             |(id0 & d & Hold & Hav & ->)]] Hnone Hsome.
  - congruence.
  - rewrite lookup_insert in Hsome.
    destruct (decide (id0 = id)); [by simplify_eq|congruence].
  - rewrite lookup_insert in Hsome.
    destruct (decide (id0 = id)); [congruence|congruence].
Qed.

Lemma store_step_kept m m' id d :
  store_step m m' → m !! id = Some d →
  m' !! id = Some d
  ∨ (status d = "available" ∧ m' !! id = Some (set_status "requested" d)).
Proof.
  intros [->|[(id0 & d0 & Hnew & -> & _)|(id0 & d0 & Hold & Hav & ->)]] Hsome.
  - by left.
  - left. rewrite lookup_insert.
    destruct (decide (id0 = id)); [congruence|done].
  - rewrite lookup_insert.
    destruct (decide (id0 = id)) as [->|]; [|by left].
    right. simplify_eq. done.
Qed.

Lemma run_all_snoc steps i w :
  run_all lower str_of_resource (steps ++ [i]) w
  = (run_interact (on_services i) (on_widgets i) (on_click i)
       (run_all lower str_of_resource steps w)).2.
Proof. unfold run_all. by rewrite foldl_app. Qed.

Lemma run_all_kept steps w id d :
  resources w !! id = Some d →
  resources (run_all lower str_of_resource steps w) !! id = Some d
  ∨ (status d = "available"
     ∧ resources (run_all lower str_of_resource steps w) !! id = Some (set_status "requested" d)).
Proof.
  intros Hsome. induction steps as [|i steps IH] using rev_ind; [by left|].
  rewrite run_all_snoc.
  pose proof (interact_store (on_services i) (on_widgets i) (on_click i)
                (run_all lower str_of_resource steps w)) as Hstep.
  destruct IH as [IH|[Hav IH]].
  - apply (store_step_kept _ _ id d Hstep IH).
  - destruct (store_step_kept _ _ id _ Hstep IH) as [H|[H _]].
    + right. by split.
    + discriminate H.
Qed.

Lemma run_all_created steps w id d' :
  resources w !! id = None →
  resources (run_all lower str_of_resource steps w) !! id = Some d' →
  title d' ≠ "" ∧ description d' ≠ ""
  ∧ (status d' = "available" ∨ status d' = "requested").
Proof.
  intros Hnone. revert d'.
  induction steps as [|i steps IH] using rev_ind; intros d' Hsome.
  { simpl in Hsome. congruence. }
  rewrite run_all_snoc in Hsome.
  pose proof (interact_store (on_services i) (on_widgets i) (on_click i)
                (run_all lower str_of_resource steps w)) as Hstep.
  destruct (resources (run_all lower str_of_resource steps w) !! id) as [d|] eqn:Hmid.
  - destruct (IH d eq_refl) as (Ht & Hd & Hs).
    destruct (store_step_kept _ _ id d Hstep Hmid) as [H|[_ H]];
      rewrite H in Hsome; simplify_eq; [done|].
    split; [done|]. split; [done|]. by right.
  - destruct (store_step_created _ _ id d' Hstep Hmid Hsome) as (Ht & Hd & Hs).
    split; [done|]. split; [done|]. by left.
Qed.

(** C7: a listing that an interaction creates has a non-empty title, a
    non-empty description and status "available"; over any sequence of
    interactions an existing listing is kept as it is or goes from
    "available" to "requested", nothing else; and a listing whose status is
    "requested" stays exactly as it is, so it never returns to "available". *)
Theorem listing_status_only_moves_forward
    (i : interaction) (steps : list interaction) (w : world) (id : string) :
  match resources w !! id with
  | None =>
      (∀ d',
         resources (run_interact (on_services i) (on_widgets i) (on_click i)
                      w).2 !! id = Some d' →
         title d' ≠ "" ∧ description d' ≠ "" ∧ status d' = "available")
      ∧ (∀ d',
           resources (run_all lower str_of_resource steps w) !! id = Some d' →
           title d' ≠ "" ∧ description d' ≠ ""
           ∧ (status d' = "available" ∨ status d' = "requested"))
  | Some d =>
      (resources (run_all lower str_of_resource steps w) !! id = Some d
       ∨ (status d = "available"
          ∧ resources (run_all lower str_of_resource steps w) !! id
            = Some (set_status "requested" d)))
      ∧ (status d = "requested" →
         resources (run_all lower str_of_resource steps w) !! id = Some d)
  end.
Proof.
  destruct (resources w !! id) as [d|] eqn:Hlook.
  - pose proof (run_all_kept steps w id d Hlook) as H. split; [done|].
    intros Hreq. destruct H as [H|[Hav _]]; [done|congruence].
  - split.
    + intros d' Hsome.
      by apply (store_step_created _ _ id d'
                  (interact_store (on_services i) (on_widgets i) (on_click i) w)).
    + intros d'. by apply run_all_created.
Qed.

End Application.

(** ** Validation of the two forms *)

Section Validation.

Variable lower : string → string.
Variable str_of_resource : resource → string.

Lemma untouched_app evs1 evs2 :
  untouched (evs1 ++ evs2) = untouched evs1 && untouched evs2.
Proof. apply forallb_app. Qed.

Lemma untouched_file_events data : untouched (file_events lower data) = true.
Proof.
  unfold file_events. destruct (falsy _); [done|].
  by destruct (is_image_url _ _).
Qed.

Lemma untouched_render search_query docs :
  untouched (render lower search_query docs) = true.
Proof.
  induction docs as [|[id data] docs IH]; [done|]. simpl.
  destruct (shown lower search_query data); [|done].
  change (untouched (file_events lower data ++ render lower search_query docs)
          = true).
  by rewrite untouched_app, untouched_file_events, IH.
Qed.

Lemma untouched_closing search_query found :
  untouched (closing_events search_query found) = true.
Proof.
  unfold closing_events. destruct (negb found && _); [done|].
  by destruct (falsy _).
Qed.

Lemma untouched_search search_query docs found :
  untouched (EvDbQuery "available" :: render lower search_query docs
             ++ closing_events search_query found) = true.
Proof.
  change (untouched (render lower search_query docs
                     ++ closing_events search_query found) = true).
  by rewrite untouched_app, untouched_render, untouched_closing.
Qed.

(** C9: when the submitted form lacks a required field, its handler does
    nothing but show the validation error; and the whole run of the script
    makes no blob upload, no write to the collection, no identity call and
    no model call, and leaves the collection and the bucket as they were. *)
Theorem missing_fields_touch_no_service
    (sv : services) (ws : widgets) (c : click) (w : world) :
  missing_required ws c w = true →
  (match c with
   | ClickPost => post_section lower str_of_resource sv ws c w
   | _ => auth_section sv ws c w
   end) = (Return tt, log [EvMessage st_error (validation_error c)] w)
  ∧ ∃ evs,
      trace (app lower str_of_resource sv ws c w).2 = trace w ++ evs
      ∧ untouched evs = true
      ∧ resources (app lower str_of_resource sv ws c w).2 = resources w
      ∧ bucket (app lower str_of_resource sv ws c w).2 = bucket w
      ∧ (has_gemini_api_key sv = true →
         EvMessage st_error (validation_error c) ∈ evs).
Proof.
  unfold missing_required. intros Hmiss.
  destruct c; try done; destruct (session_user w) as [u|] eqn:Hu; try done.
  - (* the login form *)
    split; [by apply auth_missing_field|].
    unfold app. destruct (has_gemini_api_key sv).
    + unfold mbind, M_bind, bind.
      rewrite auth_missing_field by done.
      rewrite post_other_click by done.
      rewrite search_section_idle by done. simpl.
      eexists. rewrite <- app_assoc. split; [done|].
      split; [|split; [done|split; [done|]]].
      * rewrite untouched_app, untouched_search. done.
      * intros _. apply elem_of_app. left. by apply list_elem_of_singleton.
    + simpl. eexists. split; [done|]. by repeat split.
  - (* the post form *)
    split; [by apply (post_missing_field _ _ _ _ _ u)|].
    unfold app. destruct (has_gemini_api_key sv).
    + unfold mbind, M_bind, bind.
      rewrite (auth_logged_in _ _ _ _ u) by done.
      rewrite (post_missing_field _ _ _ _ _ u) by done.
      rewrite search_section_idle by done. simpl.
      eexists. rewrite <- !app_assoc. split; [done|].
      split; [|split; [done|split; [done|]]].
      * rewrite !untouched_app, untouched_search. done.
      * intros _. apply elem_of_app. right. apply elem_of_app. left.
        by apply list_elem_of_singleton.
    + simpl. eexists. split; [done|]. by repeat split.
Qed.

End Validation.

(** * Concrete runs *)

Import Scenario.

Abbreviation run_pipeline :=
  (process_resource_with_agents ascii_lower show_resource).

(** End-to-end scenario 1 of the specification: approval with the three
    suggestions. *)
Example scenario_approved :
  (run_pipeline approving ml_book logged_in).1
  = Return ("✅ Approved!" +:+ nl +:+ nl +:+ "**AI Recommendations:**" +:+ nl
            +:+ three_items).
Proof. reflexivity. Qed.

(** End-to-end scenario 2: rejection, recommender not called. *)
Example scenario_rejected :
  (run_pipeline rejecting ml_book logged_in).1
  = Return "❌ Rejected: REJECTED - contains phone number"
  ∧ runs_of gemini_agent (trace (run_pipeline rejecting ml_book logged_in).2) = [].
Proof. split; reflexivity. Qed.

(** End-to-end scenario 3: the normalizer times out. *)
Example scenario_timeout :
  run_pipeline normalizer_down ml_book logged_in
  = (Return "⚠️ Agent error: timeout",
     log [EvAgentRun stitch_agent (show_resource ml_book)] logged_in).
Proof. reflexivity. Qed.

(** The substring test is on the lowercased text: "Rejected" inside an
    approving sentence also rejects. *)
Example approving_sentence_is_rejected :
  (run_pipeline (screening (Answer "APPROVED - not Rejected")) ml_book
     logged_in).1
  = Return "❌ Rejected: APPROVED - not Rejected".
Proof. reflexivity. Qed.

Example posting_then_requesting :
  let posted :=
    (interact ascii_lower show_resource approving book_form ClickPost
       logged_in).2 in
  let requested :=
    (interact ascii_lower show_resource approving book_form
       (ClickRequest "0") posted).2 in
  status <$> resources posted !! "0" = Some "available"
  ∧ status <$> resources requested !! "0" = Some "requested".
Proof. split; vm_compute; reflexivity. Qed.

Example endswith_png : endswith "cover.png" ".png" = true
                       ∧ endswith "cover.pdf" ".png" = false.
Proof. split; reflexivity. Qed.

Example split_head_email : split_head "@"%char "ann@college.edu" = "ann".
Proof. reflexivity. Qed.

(** * The theorems at concrete inputs *)

Lemma rejected_output_stops_pipeline_witness :
  (run_pipeline rejecting ml_book logged_in).1
  = Return ("❌ Rejected: " +:+ "REJECTED - contains phone number")
  ∧ runs_of gemini_agent (trace (run_pipeline rejecting ml_book logged_in).2)
    = runs_of gemini_agent (trace logged_in)
  ∧ trace (run_pipeline rejecting ml_book logged_in).2
    = trace logged_in ++ [EvAgentRun stitch_agent (show_resource ml_book);
                          EvAgentRun antigravity_agent cleaned_text].
Proof.
  apply (rejected_output_stops_pipeline ascii_lower show_resource rejecting
           ml_book logged_in cleaned_text "REJECTED - contains phone number").
  - reflexivity.
  - reflexivity.
  - exists "", " - contains phone number". reflexivity.
Defined.

Lemma approved_output_runs_recommender_once_witness :
  runs_of gemini_agent (trace (run_pipeline approving ml_book logged_in).2)
  = [cleaned_text]
  ∧ (run_pipeline approving ml_book logged_in).1
    = Return ("✅ Approved!" +:+ nl +:+ nl +:+ "**AI Recommendations:**"
              +:+ nl +:+ three_items).
Proof.
  destruct (approved_output_runs_recommender_once ascii_lower show_resource
              approving ml_book logged_in cleaned_text "APPROVED - no issues")
    as [Hruns [Hmsg _]].
  - reflexivity.
  - reflexivity.
  - intros Hin. apply str_in_true_iff in Hin. discriminate Hin.
  - split; [exact Hruns | exact Hmsg].
Defined.

Lemma normalizer_failure_is_wrapped_witness :
  (run_pipeline normalizer_down ml_book logged_in).1
  = Return ("⚠️ Agent error: " +:+ "timeout")
  ∧ runs_of antigravity_agent
      (trace (run_pipeline normalizer_down ml_book logged_in).2)
    = runs_of antigravity_agent (trace logged_in)
  ∧ runs_of gemini_agent (trace (run_pipeline normalizer_down ml_book logged_in).2)
    = runs_of gemini_agent (trace logged_in)
  ∧ trace (run_pipeline normalizer_down ml_book logged_in).2
    = trace logged_in ++ [EvAgentRun stitch_agent (show_resource ml_book)].
Proof.
  apply (normalizer_failure_is_wrapped ascii_lower show_resource
           normalizer_down ml_book logged_in "timeout").
  reflexivity.
Defined.

Lemma screener_failure_is_wrapped_witness :
  (run_pipeline screener_down ml_book logged_in).1
  = Return ("⚠️ Agent error: " +:+ "503 unavailable")
  ∧ runs_of gemini_agent (trace (run_pipeline screener_down ml_book logged_in).2)
    = runs_of gemini_agent (trace logged_in)
  ∧ trace (run_pipeline screener_down ml_book logged_in).2
    = trace logged_in ++ [EvAgentRun stitch_agent (show_resource ml_book);
                          EvAgentRun antigravity_agent cleaned_text].
Proof.
  apply (screener_failure_is_wrapped ascii_lower show_resource screener_down
           ml_book logged_in cleaned_text "503 unavailable"); reflexivity.
Defined.

Lemma listing_persisted_before_pipeline_witness :
  (resources
     (post_section ascii_lower show_resource rejecting book_form ClickPost
        logged_in).2
   = <[fresh (dom (resources logged_in))
       := stored_resource book_form "ann@college.edu" logged_in]>
       (resources logged_in)
   ∧ resources
       (post_section ascii_lower show_resource screener_down book_form
          ClickPost logged_in).2
     = resources
         (post_section ascii_lower show_resource rejecting book_form
            ClickPost logged_in).2)
  ∧ (post_section ascii_lower show_resource rejecting book_form_with_photo
       ClickPost logged_in).1 = Raise name_error
  ∧ resources
      (post_section ascii_lower show_resource rejecting book_form_with_photo
         ClickPost logged_in).2 = resources logged_in.
Proof.
  pose proof (listing_persisted_before_pipeline ascii_lower show_resource
                rejecting screener_down book_form logged_in
                "ann@college.edu" eq_refl eq_refl)
    as (_ & _ & _ & _ & _ & Hstored & Hsame).
  pose proof (listing_persisted_before_pipeline ascii_lower show_resource
                rejecting screener_down book_form_with_photo logged_in
                "ann@college.edu" eq_refl eq_refl)
    as (_ & Hraise & Hnothing & _).
  split; [split; [exact Hstored | exact Hsame]|].
  split; [exact Hraise | exact Hnothing].
Defined.

Lemma upload_branch_raises_name_error_witness :
  (post_section ascii_lower show_resource approving book_form_with_photo
     ClickPost logged_in).1 = Raise "name 'timedelta' is not defined"
  ∧ bucket
      (post_section ascii_lower show_resource approving book_form_with_photo
         ClickPost logged_in).2 !! "ann_cover.png" = Some "PNG"
  ∧ trace
      (post_section ascii_lower show_resource approving book_form_with_photo
         ClickPost logged_in).2
    = trace logged_in ++ [EvBlobUpload "ann_cover.png" "PNG"]
  ∧ resources
      (post_section ascii_lower show_resource approving book_form_with_photo
         ClickPost logged_in).2 = resources logged_in.
Proof.
  apply (upload_branch_raises_name_error ascii_lower show_resource approving
           book_form_with_photo logged_in "ann@college.edu"
           {| upload_name := "cover.png"; upload_bytes := "PNG" |});
    reflexivity.
Defined.

Lemma listing_status_only_moves_forward_witness :
  resources
    (run_all ascii_lower show_resource
       [ {| on_services := approving; on_widgets := searching_ml;
            on_click := ClickRequest "n1" |};
         {| on_services := rejecting; on_widgets := book_form;
            on_click := ClickPost |} ]
       with_taken_notes) !! "n1" = Some taken_notes.
Proof.
  pose proof (listing_status_only_moves_forward ascii_lower show_resource
                {| on_services := approving; on_widgets := book_form;
                   on_click := ClickPost |}
                [ {| on_services := approving; on_widgets := searching_ml;
                     on_click := ClickRequest "n1" |};
                  {| on_services := rejecting; on_widgets := book_form;
                     on_click := ClickPost |} ]
                with_taken_notes "n1") as H.
  change (resources with_taken_notes !! "n1") with (Some taken_notes) in H.
  apply H. reflexivity.
Defined.

Lemma missing_fields_touch_no_service_witness :
  missing_required empty_form ClickPost logged_in = true
  ∧ post_section ascii_lower show_resource approving empty_form ClickPost
      logged_in
    = (Return tt,
       log [EvMessage st_error "Title and description are required."]
         logged_in).
Proof.
  split; [reflexivity|].
  exact (proj1 (missing_fields_touch_no_service ascii_lower show_resource
                  approving empty_form ClickPost logged_in eq_refl)).
Defined.




(** * Further properties of the script *)

(** ** The login form (lines 86-117) *)

Section LoginForm.

Variable sv : services.

Lemma auth_login_answer ws w :
  session_user w = None →
  falsy (w_email ws) || falsy (w_password ws) = false →
  w_choice ws = Login →
  get_user_by_email sv (w_email ws) = Answer tt →
  auth_section sv ws ClickSubmit w
  = (Halt ScriptRerun,
     with_session_user (Some (w_email ws))
       (log [EvGetUserByEmail (w_email ws);
             EvMessage st_success
               ("Welcome back, " +:+ w_email ws +:+ "!")] w)).
Proof.
  intros Hu Hf Hc Hget. unfold auth_section. rewrite Hu, Hf, Hc.
  unfold try_except, mbind, M_bind, bind, auth_get_user_by_email, emit,
    message, emit, of_reply. simpl. rewrite Hget. simpl.
  by rewrite log_log.
Qed.

Lemma auth_login_failure ws w e :
  session_user w = None →
  falsy (w_email ws) || falsy (w_password ws) = false →
  w_choice ws = Login →
  get_user_by_email sv (w_email ws) = Failure e →
  auth_section sv ws ClickSubmit w
  = (Return tt,
     log [EvGetUserByEmail (w_email ws);
          EvMessage st_error (identity_error_message e)] w).
Proof.
  intros Hu Hf Hc Hget. unfold auth_section. rewrite Hu, Hf, Hc.
  unfold try_except, mbind, M_bind, bind, auth_get_user_by_email, emit,
    message, emit, of_reply, identity_error_message. simpl.
  rewrite Hget. simpl.
  by repeat (destruct (str_in _ e); simpl; rewrite ?log_log).
Qed.

Lemma auth_signup_answer ws w :
  session_user w = None →
  falsy (w_email ws) || falsy (w_password ws) = false →
  w_choice ws = Signup →
  create_user sv (w_email ws) (w_password ws) = Answer tt →
  auth_section sv ws ClickSubmit w
  = (Return tt,
     log [EvCreateUser (w_email ws) (w_password ws);
          EvMessage st_success "Account created successfully!";
          EvMessage st_info "Now log in with the same credentials."] w).
Proof.
  intros Hu Hf Hc Hnew. unfold auth_section. rewrite Hu, Hf, Hc.
  unfold try_except, mbind, M_bind, bind, auth_create_user, emit,
    message, emit, of_reply. simpl. rewrite Hnew. simpl.
  by rewrite !log_log.
Qed.

Lemma auth_signup_failure ws w e :
  session_user w = None →
  falsy (w_email ws) || falsy (w_password ws) = false →
  w_choice ws = Signup →
  create_user sv (w_email ws) (w_password ws) = Failure e →
  auth_section sv ws ClickSubmit w
  = (Return tt,
     log [EvCreateUser (w_email ws) (w_password ws);
          EvMessage st_error (identity_error_message e)] w).
Proof.
  intros Hu Hf Hc Hnew. unfold auth_section. rewrite Hu, Hf, Hc.
  unfold try_except, mbind, M_bind, bind, auth_create_user, emit,
    message, emit, of_reply, identity_error_message. simpl.
  rewrite Hnew. simpl.
  by repeat (destruct (str_in _ e); simpl; rewrite ?log_log).
Qed.

(** X1: a login with both fields filled, for an email the identity provider
    knows, asks the provider once (by email only), greets the user, puts the
    email in the session and restarts the script. *)
Theorem login_success_sets_session (ws : widgets) (w : world) :
  session_user w = None →
  falsy (w_email ws) || falsy (w_password ws) = false →
  w_choice ws = Login →
  get_user_by_email sv (w_email ws) = Answer tt →
  (auth_section sv ws ClickSubmit w).1 = Halt ScriptRerun
  ∧ session_user (auth_section sv ws ClickSubmit w).2 = Some (w_email ws)
  ∧ trace (auth_section sv ws ClickSubmit w).2
    = trace w ++ [EvGetUserByEmail (w_email ws);
                  EvMessage st_success
                    ("Welcome back, " +:+ w_email ws +:+ "!")]
  ∧ resources (auth_section sv ws ClickSubmit w).2 = resources w
  ∧ bucket (auth_section sv ws ClickSubmit w).2 = bucket w.
Proof. intros Hu Hf Hc Hget. by rewrite auth_login_answer. Qed.

(** X2: a login never looks at the password beyond its being non-empty: with
    any other non-empty password the login section does exactly the same. *)
Theorem login_ignores_password
    (ws : widgets) (other_password : string) (w : world) :
  w_choice ws = Login →
  falsy (w_password ws) = false →
  falsy other_password = false →
  auth_section sv (with_password other_password ws) ClickSubmit w
  = auth_section sv ws ClickSubmit w.
Proof.
  intros Hc Hp Hp'. unfold auth_section. simpl.
  destruct (session_user w); [done|].
  rewrite Hc, Hp, Hp'. done.
Qed.

(** X3: a successful signup creates the account with the typed email and
    password and tells the user to log in; it does not log the user in and
    does not restart the script. *)
Theorem signup_does_not_log_in (ws : widgets) (w : world) :
  session_user w = None →
  falsy (w_email ws) || falsy (w_password ws) = false →
  w_choice ws = Signup →
  create_user sv (w_email ws) (w_password ws) = Answer tt →
  (auth_section sv ws ClickSubmit w).1 = Return tt
  ∧ session_user (auth_section sv ws ClickSubmit w).2 = None
  ∧ trace (auth_section sv ws ClickSubmit w).2
    = trace w ++ [EvCreateUser (w_email ws) (w_password ws);
                  EvMessage st_success "Account created successfully!";
                  EvMessage st_info "Now log in with the same credentials."].
Proof. intros Hu Hf Hc Hnew. by rewrite auth_signup_answer. Qed.

(** X4: when the identity provider fails, for a login or a signup, the
    exception is not propagated: the section returns, the session stays
    empty, and exactly one error box is shown, chosen by the error text:
    "EMAIL_ALREADY_EXISTS" first, then "INVALID_EMAIL", else the text
    itself after "Error: ". *)
Theorem identity_failure_is_reported (ws : widgets) (w : world) (e : string) :
  session_user w = None →
  falsy (w_email ws) || falsy (w_password ws) = false →
  match w_choice ws with
  | Login => get_user_by_email sv (w_email ws)
  | Signup => create_user sv (w_email ws) (w_password ws)
  end = Failure e →
  (auth_section sv ws ClickSubmit w).1 = Return tt
  ∧ session_user (auth_section sv ws ClickSubmit w).2 = None
  ∧ trace (auth_section sv ws ClickSubmit w).2
    = trace w
      ++ [match w_choice ws with
          | Login => EvGetUserByEmail (w_email ws)
          | Signup => EvCreateUser (w_email ws) (w_password ws)
          end;
          EvMessage st_error (identity_error_message e)]
  ∧ (contains "EMAIL_ALREADY_EXISTS" e →
     identity_error_message e = "Email already registered. Try logging in.")
  ∧ (¬ contains "EMAIL_ALREADY_EXISTS" e → contains "INVALID_EMAIL" e →
     identity_error_message e = "Invalid email format.")
  ∧ (¬ contains "EMAIL_ALREADY_EXISTS" e → ¬ contains "INVALID_EMAIL" e →
     identity_error_message e = "Error: " +:+ e).
Proof.
  intros Hu Hf Hfail.
  assert (auth_section sv ws ClickSubmit w
          = (Return tt,
             log [match w_choice ws with
                  | Login => EvGetUserByEmail (w_email ws)
                  | Signup => EvCreateUser (w_email ws) (w_password ws)
                  end;
                  EvMessage st_error (identity_error_message e)] w)) as ->.
  { destruct (w_choice ws) eqn:Hc.
    - by apply auth_login_failure.
    - by apply auth_signup_failure. }
  simpl. rewrite Hu. repeat split; try done; unfold identity_error_message.
  - intros H. apply str_in_true_iff in H. by rewrite H.
  - intros H1 H2. apply str_in_false_iff in H1. apply str_in_true_iff in H2.
    by rewrite H1, H2.
  - intros H1 H2. apply str_in_false_iff in H1, H2. by rewrite H1, H2.
Qed.

End LoginForm.

(** ** Runs with no button, logout and requests *)

Section Pages.

Variable lower : string → string.
Variable str_of_resource : resource → string.
Variable sv : services.

Lemma auth_idle ws c w :
  c ≠ ClickSubmit → c ≠ ClickLogout →
  auth_section sv ws c w = (Return tt, log (greeting (session_user w)) w).
Proof.
  intros H1 H2. unfold auth_section.
  destruct (session_user w) as [u|]; destruct c; try done;
    by rewrite log_nil.
Qed.

Lemma search_section_page ws c w :
  is_request c = false →
  search_section lower ws c w
  = (Return tt, log (search_page lower (w_search_query ws) w) w).
Proof. intros Hc. by rewrite search_section_idle. Qed.

Lemma search_page_log evs search_query w :
  search_page lower search_query (log evs w)
  = search_page lower search_query w.
Proof. done. Qed.

(** A run with no button pressed only greets and shows the search page. *)
Lemma app_no_click_run ws w :
  has_gemini_api_key sv = true →
  app lower str_of_resource sv ws NoClick w
  = (Return tt,
     log (greeting (session_user w)
          ++ search_page lower (w_search_query ws) w) w).
Proof.
  intros Hkey. unfold app. rewrite Hkey.
  unfold mbind, M_bind, bind. rewrite auth_idle by done.
  rewrite post_other_click by done.
  rewrite search_section_page by done.
  by rewrite search_page_log, log_log.
Qed.

(** X5: pressing Logout greets, empties the session and restarts the script,
    leaving the collection and the bucket as they were; and the restarted
    run, whatever widget values it reads (the search box was not yet shown
    when the restart was asked, so its query may be the default one), ends
    normally and shows only the search page of a logged-out visitor for the
    query it reads. *)
Theorem logout_clears_session
    (ws restart : widgets) (w : world) (user_email : string) :
  has_gemini_api_key sv = true →
  session_user w = Some user_email →
  let first := app lower str_of_resource sv ws ClickLogout w in
  first
  = (Halt ScriptRerun,
     with_session_user None
       (log [EvMessage st_success ("Logged in as: " +:+ user_email)] w))
  ∧ app lower str_of_resource sv restart NoClick first.2
    = (Return tt,
       log (search_page lower (w_search_query restart) w) first.2)
  ∧ session_user (app lower str_of_resource sv restart NoClick first.2).2
    = None
  ∧ resources (app lower str_of_resource sv restart NoClick first.2).2
    = resources w
  ∧ bucket (app lower str_of_resource sv restart NoClick first.2).2
    = bucket w.
Proof.
  intros Hkey Hu. cbv zeta.
  assert (app lower str_of_resource sv ws ClickLogout w
          = (Halt ScriptRerun,
             with_session_user None
               (log [EvMessage st_success ("Logged in as: " +:+ user_email)]
                  w))) as ->.
  { unfold app. rewrite Hkey.
    unfold mbind, M_bind, bind, auth_section. rewrite Hu.
    by unfold mbind, M_bind, bind, message, emit, set_session, halt. }
  split; [done|]. cbn [snd].
  rewrite app_no_click_run by done. by cbn [snd].
Qed.

Lemma with_resources_log m evs w :
  with_resources m (log evs w) = log evs (with_resources m w).
Proof. done. Qed.

(** The loop up to the listing whose button was pressed. *)
Lemma show_resources_request search_query id d before after found w :
  (∀ d', (id, d') ∉ before) →
  shown lower search_query d = true →
  resources w !! id = Some d →
  show_resources lower search_query (ClickRequest id)
    (before ++ (id, d) :: after) found w
  = (Halt ScriptRerun,
     log (render lower search_query before
          ++ EvCard id d :: file_events lower d
          ++ [EvDbUpdate id "requested"; EvMessage st_success "Request sent!"])
       (with_resources (<[id := set_status "requested" d]> (resources w)) w)).
Proof.
  intros Hbefore Hshown. revert found w.
  induction before as [|[id' d'] before IH]; intros found w Hlook.
  - simpl. rewrite Hshown. unfold mbind, M_bind, bind, emit. simpl.
    rewrite show_file_run.
    rewrite (request_button_clicked id d) by exact Hlook.
    simpl. repeat first [rewrite with_resources_log | rewrite log_log].
    by rewrite <- ?app_assoc.
  - assert (id' ≠ id) as Hne.
    { intros ->. apply (Hbefore d'). by left. }
    assert (∀ d0, (id, d0) ∉ before) as Hrest.
    { intros d0 Hin. apply (Hbefore d0). by right. }
    change (((id', d') :: before) ++ (id, d) :: after)
      with ((id', d') :: (before ++ (id, d) :: after)).
    simpl. destruct (shown lower search_query d') eqn:Hs.
    + unfold mbind, M_bind, bind, emit. simpl. rewrite show_file_run.
      rewrite bool_decide_eq_false_2 by congruence. unfold ret.
      rewrite IH by done. simpl.
      repeat first [rewrite with_resources_log | rewrite log_log].
      by rewrite <- ?app_assoc.
    + by rewrite IH.
Qed.

Lemma available_docs_split id d w :
  resources w !! id = Some d → status d = "available" →
  ∃ before after,
    available_docs w = before ++ (id, d) :: after ∧ ∀ d', (id, d') ∉ before.
Proof.
  intros Hlook Hav.
  assert ((id, d) ∈ available_docs w) as Hin
    by by apply elem_of_available_docs.
  apply list_elem_of_split_l in Hin as (before & after & Heq & Hnotin).
  exists before, after. split; [done|]. intros d' Hin.
  assert ((id, d') ∈ available_docs w) as Hin'.
  { rewrite Heq. apply elem_of_app. by left. }
  apply (elem_of_available_docs lower) in Hin' as [Hlook' _].
  assert (d' = d) as -> by congruence. done.
Qed.

(** What pressing the request button of a shown, available listing does to
    the world, whoever is in the session. *)
Lemma app_request_run ws w id d :
  has_gemini_api_key sv = true →
  resources w !! id = Some d →
  status d = "available" →
  shown lower (w_search_query ws) d = true →
  ∃ evs,
    app lower str_of_resource sv ws (ClickRequest id) w
    = (Halt ScriptRerun,
       log evs
         (with_resources (<[id := set_status "requested" d]> (resources w)) w))
    ∧ EvDbUpdate id "requested" ∈ evs.
Proof.
  intros Hkey Hlook Hav Hshown.
  destruct (available_docs_split id d w Hlook Hav)
    as (before & after & Hdocs & Hbefore).
  unfold app. rewrite Hkey. unfold mbind, M_bind, bind.
  rewrite auth_idle by done. rewrite post_other_click by done.
  unfold search_section, mbind, M_bind, bind, db_where_status. simpl.
  fold (available_docs w). rewrite Hdocs.
  rewrite (show_resources_request _ id d before after false
             (log [EvDbQuery "available"] (log (greeting (session_user w)) w))
             Hbefore Hshown Hlook).
  simpl. repeat first [rewrite with_resources_log | rewrite log_log].
  eexists. split; [done|].
  rewrite !elem_of_app, !elem_of_cons, !elem_of_app, !elem_of_cons.
  right. right. right. right. right. by left.
Qed.

(** X6: pressing the request button of a listing that is available and shown
    marks it "requested" and restarts the script.  Nothing is asked about the
    session: a logged-out visitor, or the owner, can do it.  No other listing
    changes, and neither do the session and the bucket. *)
Theorem request_marks_listing_requested
    (ws : widgets) (w : world) (id : string) (d : resource) :
  has_gemini_api_key sv = true →
  resources w !! id = Some d →
  status d = "available" →
  shown lower (w_search_query ws) d = true →
  let w' := (app lower str_of_resource sv ws (ClickRequest id) w).2 in
  (app lower str_of_resource sv ws (ClickRequest id) w).1 = Halt ScriptRerun
  ∧ resources w' !! id = Some (set_status "requested" d)
  ∧ (∀ other, other ≠ id → resources w' !! other = resources w !! other)
  ∧ session_user w' = session_user w
  ∧ bucket w' = bucket w
  ∧ EvDbUpdate id "requested" ∈ trace w'.
Proof.
  intros Hkey Hlook Hav Hshown.
  destruct (app_request_run ws w id d Hkey Hlook Hav Hshown)
    as (evs & Hrun & Hupd).
  simpl. rewrite Hrun. simpl. split; [done|].
  split; [apply lookup_insert_eq|].
  split; [intros other Hne; by apply lookup_insert_ne|].
  split; [done|]. split; [done|].
  apply elem_of_app. by right.
Qed.

Lemma card_in_greeting id d u : EvCard id d ∉ greeting u.
Proof.
  destruct u; simpl; [|apply not_elem_of_nil].
  intros H. apply list_elem_of_singleton in H. discriminate H.
Qed.

Lemma card_in_search_page search_query w id d :
  EvCard id d ∈ search_page lower search_query w
  ↔ resources w !! id = Some d ∧ status d = "available"
    ∧ shown lower search_query d = true.
Proof.
  unfold search_page.
  rewrite elem_of_cons, elem_of_app, card_in_render,
    (elem_of_available_docs lower).
  split.
  - intros [H|[[[H1 H2] H3]|H]]; [discriminate H|done|].
    by apply card_in_closing in H.
  - intros (H1 & H2 & H3). right. by left.
Qed.

(** X7: after a request, the page of the restarted run no longer shows the
    requested listing, and shows every other listing exactly when it was
    available and matched before. *)
Theorem requested_listing_leaves_results
    (ws : widgets) (w : world) (id : string) (d : resource) :
  has_gemini_api_key sv = true →
  resources w !! id = Some d →
  status d = "available" →
  shown lower (w_search_query ws) d = true →
  let first := (app lower str_of_resource sv ws (ClickRequest id) w).2 in
  ∃ page,
    interact lower str_of_resource sv ws (ClickRequest id) w
    = (Return tt, log page first)
    ∧ ∀ id' d',
        EvCard id' d' ∈ page
        ↔ id' ≠ id ∧ resources w !! id' = Some d'
          ∧ status d' = "available"
          ∧ shown lower (w_search_query ws) d' = true.
Proof.
  intros Hkey Hlook Hav Hshown.
  destruct (app_request_run ws w id d Hkey Hlook Hav Hshown)
    as (evs & Hrun & _).
  simpl. unfold interact. rewrite Hrun. simpl.
  rewrite app_no_click_run by done. eexists. split; [done|].
  intros id' d'. rewrite elem_of_app, card_in_search_page. simpl.
  rewrite lookup_insert. split.
  - intros [H|(H1 & H2 & H3)]; [by apply card_in_greeting in H|].
    destruct (decide (id = id')) as [<-|Hne].
    + by simplify_eq.
    + by split; [congruence|].
  - intros (Hne & H1 & H2 & H3). right.
    destruct (decide (id = id')); [congruence|done].
Qed.

End Pages.

(** ** What a run can change in the collection *)

Section Changes.

Variable lower : string → string.
Variable str_of_resource : resource → string.

(** The loop either leaves the collection alone or marks as requested the
    listing whose button was pressed. *)
Lemma show_resources_changes search_query c docs found w :
  (∀ id d, (id, d) ∈ docs →
           resources w !! id = Some d ∧ status d = "available") →
  let w' := (show_resources lower search_query c docs found w).2 in
  resources w' = resources w
  ∨ ∃ id d, c = ClickRequest id ∧ resources w !! id = Some d
            ∧ status d = "available"
            ∧ resources w' = <[id := set_status "requested" d]> (resources w).
Proof.
  revert found w. induction docs as [|[id data] docs IH]; intros found w Hdocs.
  - by left.
  - simpl. destruct (shown lower search_query data) eqn:Hs; cycle 1.
    { apply IH. intros id' d' H. apply Hdocs. by right. }
    unfold mbind, M_bind, bind, emit. simpl. rewrite show_file_run.
    destruct (decide (c = ClickRequest id)) as [->|Hc].
    + destruct (Hdocs id data) as [Hlook Hav]; [by left|].
      rewrite (request_button_clicked id data) by exact Hlook. simpl.
      right. by exists id, data.
    + rewrite request_button_other by done.
      apply (IH true (log (file_events lower data) (log [EvCard id data] w))).
      intros id' d' H. apply Hdocs. by right.
Qed.

Lemma search_section_changes ws c w :
  let w' := (search_section lower ws c w).2 in
  resources w' = resources w
  ∨ ∃ id d, c = ClickRequest id ∧ resources w !! id = Some d
            ∧ status d = "available"
            ∧ resources w' = <[id := set_status "requested" d]> (resources w).
Proof.
  unfold search_section, mbind, M_bind, bind, db_where_status. simpl.
  pose proof (show_resources_changes (w_search_query ws) c
                (available_docs w) false (log [EvDbQuery "available"] w)) as H.
  simpl in H. unfold available_docs in H at 2.
  assert (∀ id d, (id, d) ∈ available_docs w →
                  resources w !! id = Some d ∧ status d = "available") as Hd.
  { intros id d Hin. by apply (elem_of_available_docs lower) in Hin. }
  specialize (H Hd).
  destruct (show_resources _ _ _ _ _) as [[found| |] w1] eqn:Hrun; simpl in *;
    try done.
  unfold message, emit, ret.
  destruct (negb found && _); simpl; [done|].
  by destruct (falsy _).
Qed.

Lemma post_section_changes sv ws c w :
  let w' := (post_section lower str_of_resource sv ws c w).2 in
  resources w' = resources w
  ∨ (c = ClickPost
     ∧ ∃ user_email,
         session_user w = Some user_email
         ∧ falsy (w_title ws) || falsy (w_description ws) = false
         ∧ w_uploaded_file ws = None
         ∧ resources w'
           = <[fresh (dom (resources w)) := stored_resource ws user_email w]>
               (resources w)).
Proof.
  destruct (session_user w) as [user_email|] eqn:Hu; cycle 1.
  { rewrite post_not_logged_in by done. by left. }
  destruct (decide (c = ClickPost)) as [->|Hc]; cycle 1.
  { rewrite post_other_click by done. by left. }
  destruct (falsy (w_title ws) || falsy (w_description ws)) eqn:Hf.
  { rewrite (post_missing_field _ _ _ _ _ user_email) by done. by left. }
  destruct (w_uploaded_file ws) as [f|] eqn:Hfile.
  { rewrite (post_with_file _ _ _ _ _ user_email f) by done. by left. }
  rewrite (post_without_file _ _ _ _ _ user_email) by done. simpl.
  right. split; [done|]. by exists user_email.
Qed.

(** When the login section returns, it has left the session as it was. *)
Lemma auth_section_return sv ws c w :
  (auth_section sv ws c w).1 = Return tt →
  session_user (auth_section sv ws c w).2 = session_user w.
Proof.
  unfold auth_section. destruct (session_user w) as [u|] eqn:Hu.
  { destruct c; simpl; try done. }
  destruct c; try done.
  destruct (falsy (w_email ws) || falsy (w_password ws)); [done|].
  unfold try_except, mbind, M_bind, bind, auth_create_user,
    auth_get_user_by_email, of_reply, message, emit, ret, raise.
  destruct (w_choice ws); simpl.
  - destruct (get_user_by_email sv (w_email ws)) as [[]|e]; simpl; [done|].
    by repeat (destruct (str_in _ e); simpl).
  - destruct (create_user sv (w_email ws) (w_password ws)) as [[]|e]; simpl;
      [done|].
    by repeat (destruct (str_in _ e); simpl).
Qed.

(** The login section does not move the store's clock. *)
Lemma auth_section_clock sv ws c w :
  clock (auth_section sv ws c w).2 = clock w.
Proof.
  unfold auth_section. destruct (session_user w) as [u|].
  { by destruct c. }
  destruct c; try done.
  destruct (falsy (w_email ws) || falsy (w_password ws)); [done|].
  unfold try_except, mbind, M_bind, bind, auth_create_user,
    auth_get_user_by_email, of_reply, message, emit, ret, raise.
  destruct (w_choice ws); simpl.
  - destruct (get_user_by_email sv (w_email ws)) as [[]|e]; simpl; [done|].
    by repeat (destruct (str_in _ e); simpl).
  - destruct (create_user sv (w_email ws) (w_password ws)) as [[]|e]; simpl;
      [done|].
    by repeat (destruct (str_in _ e); simpl).
Qed.

(** One run changes the collection in at most one way: the post button of a
    logged-in user adds the form's listing, or a request button marks its
    listing as requested. *)
Lemma app_changes sv ws c w :
  let w' := (app lower str_of_resource sv ws c w).2 in
  resources w' = resources w
  ∨ (c = ClickPost
     ∧ ∃ user_email,
         session_user w = Some user_email
         ∧ falsy (w_title ws) || falsy (w_description ws) = false
         ∧ w_uploaded_file ws = None
         ∧ resources w'
           = <[fresh (dom (resources w)) := stored_resource ws user_email w]>
               (resources w))
  ∨ ∃ id d, c = ClickRequest id ∧ resources w !! id = Some d
            ∧ status d = "available"
            ∧ resources w' = <[id := set_status "requested" d]> (resources w).
Proof.
  unfold app. destruct (has_gemini_api_key sv); [|by left].
  unfold mbind, M_bind, bind.
  pose proof (auth_section_frame sv ws c w) as [Hauth _].
  pose proof (auth_section_return sv ws c w) as Hsession.
  pose proof (auth_section_clock sv ws c w) as Hclock.
  destruct (auth_section sv ws c w) as [[[]| |] w1]; simpl in Hauth; simpl;
    try (left; by rewrite Hauth).
  simpl in Hsession, Hclock. specialize (Hsession eq_refl).
  destruct (decide (c = ClickPost)) as [->|Hc].
  - pose proof (post_section_changes sv ws ClickPost w1) as Hpost.
    simpl in Hpost. unfold stored_resource in *.
    rewrite Hauth, Hsession, Hclock in Hpost.
    destruct (post_section _ _ _ _ _ _) as [[[]| |] w2]; simpl in *;
      rewrite ?search_section_idle_store by done;
      (destruct Hpost as [Hpost|Hpost]; [by left | by right; left]).
  - rewrite post_other_click by done.
    destruct (search_section_changes ws c w1) as [H|H].
    + left. by rewrite H.
    + right. right. by rewrite <- Hauth.
Qed.

Lemma interact_changes sv ws c w :
  let w' := (interact lower str_of_resource sv ws c w).2 in
  resources w' = resources w
  ∨ (c = ClickPost
     ∧ ∃ user_email,
         session_user w = Some user_email
         ∧ falsy (w_title ws) || falsy (w_description ws) = false
         ∧ w_uploaded_file ws = None
         ∧ resources w'
           = <[fresh (dom (resources w)) := stored_resource ws user_email w]>
               (resources w))
  ∨ ∃ id d, c = ClickRequest id ∧ resources w !! id = Some d
            ∧ status d = "available"
            ∧ resources w' = <[id := set_status "requested" d]> (resources w).
Proof.
  unfold interact. pose proof (app_changes sv ws c w) as H.
  destruct (app lower str_of_resource sv ws c w) as [[[]| |[|]] w1];
    simpl in *; try done.
  by rewrite app_no_click_store.
Qed.

(** X8: a listing an interaction creates is exactly the submitted form: the
    interaction is a press of the post button by a logged-in user with no
    file attached, the listing carries the form's title, description and
    category, is owned by that user, has an empty [file_url], status
    "available" and the store's timestamp, and sits under the unused
    identifier. *)
Theorem created_listing_is_form_data
    (sv : services) (ws : widgets) (c : click) (w : world) (id : string)
    (d' : resource) :
  resources w !! id = None →
  resources (interact lower str_of_resource sv ws c w).2 !! id = Some d' →
  c = ClickPost
  ∧ w_uploaded_file ws = None
  ∧ id = fresh (dom (resources w))
  ∧ session_user w = Some (owner d')
  ∧ d' = {| title := w_title ws; description := w_description ws;
            category := category_label (w_category ws); owner := owner d';
            file_url := ""; status := "available";
            timestamp := ServerTime (clock w) |}.
Proof.
  intros Hnone Hsome.
  destruct (interact_changes sv ws c w)
    as [H|[(-> & u & Hu & Hf & Hfile & H)|(id0 & d & -> & Hlook & Hav & H)]];
    simpl in H; rewrite H in Hsome.
  - congruence.
  - rewrite lookup_insert in Hsome.
    destruct (decide (fresh (dom (resources w)) = id)) as [<-|]; [|congruence].
    injection Hsome as <-. by rewrite Hu.
  - rewrite lookup_insert in Hsome.
    destruct (decide (id0 = id)); congruence.
Qed.

(** X9: an interaction changes an existing listing only when that listing's
    own request button is pressed, and then only its status, from
    "available" to "requested". *)
Theorem listing_changes_only_by_its_request
    (sv : services) (ws : widgets) (c : click) (w : world) (id : string)
    (d d' : resource) :
  resources w !! id = Some d →
  resources (interact lower str_of_resource sv ws c w).2 !! id = Some d' →
  d' ≠ d →
  c = ClickRequest id ∧ status d = "available"
  ∧ d' = set_status "requested" d.
Proof.
  intros Hlook Hsome Hne.
  destruct (interact_changes sv ws c w)
    as [H|[(-> & u & Hu & Hf & Hfile & H)|(id0 & d0 & -> & Hlook0 & Hav & H)]];
    simpl in H; rewrite H in Hsome.
  - congruence.
  - rewrite lookup_insert in Hsome.
    destruct (decide (fresh (dom (resources w)) = id)) as [<-|]; [|congruence].
    pose proof (is_fresh (dom (resources w))) as Hfresh.
    apply not_elem_of_dom in Hfresh. congruence.
  - rewrite lookup_insert in Hsome.
    destruct (decide (id0 = id)) as [->|]; [|congruence].
    by simplify_eq.
Qed.

End Changes.

(** ** A post shows up in the same run *)

Section PostThenSearch.

Variable lower : string → string.
Variable str_of_resource : resource → string.
Variable sv : services.

Lemma card_in_pipeline_events id d resource_data :
  EvCard id d ∉ pipeline_events lower str_of_resource sv resource_data.
Proof.
  unfold pipeline_events. intros H.
  apply elem_of_cons in H as [H|H]; [discriminate H|].
  destruct (llm_run sv stitch_agent _); [|by apply elem_of_nil in H].
  apply elem_of_cons in H as [H|H]; [discriminate H|].
  destruct (llm_run sv antigravity_agent _); [|by apply elem_of_nil in H].
  destruct (str_in _ _); [by apply elem_of_nil in H|].
  apply list_elem_of_singleton in H. discriminate H.
Qed.

(** The whole run of a valid post without a file. *)
Lemma app_post_run ws w user_email :
  has_gemini_api_key sv = true →
  session_user w = Some user_email →
  falsy (w_title ws) || falsy (w_description ws) = false →
  w_uploaded_file ws = None →
  let id := fresh (dom (resources w)) in
  let stored := stored_resource ws user_email w in
  let resource_data := posted_resource ws user_email in
  let w2 := tick (with_resources (<[id := stored]> (resources w)) w) in
  app lower str_of_resource sv ws ClickPost w
  = (Return tt,
     log (greeting (Some user_email)
          ++ [EvDbAdd id stored]
          ++ pipeline_events lower str_of_resource sv resource_data
          ++ [EvMessage st_success "Resource posted successfully!";
              EvMessage st_info
                (pipeline_message lower str_of_resource sv resource_data)]
          ++ search_page lower (w_search_query ws) w2) w2).
Proof.
  intros Hkey Hu Hf Hfile. cbv zeta. unfold app. rewrite Hkey.
  unfold mbind, M_bind, bind. rewrite auth_idle by done. rewrite Hu.
  rewrite (post_without_file lower str_of_resource sv ws
             (log (greeting (Some user_email)) w) user_email Hu Hf Hfile).
  cbv beta iota zeta.
  match goal with
  | |- context [search_section lower ws ClickPost ?W] =>
      change W with
        (log ([EvDbAdd (fresh (dom (resources w)))
                 (stored_resource ws user_email w)]
              ++ pipeline_events lower str_of_resource sv
                   (posted_resource ws user_email)
              ++ [EvMessage st_success "Resource posted successfully!";
                  EvMessage st_info
                    (pipeline_message lower str_of_resource sv
                       (posted_resource ws user_email))])
           (log (greeting (Some user_email))
              (tick (with_resources
                       (<[fresh (dom (resources w))
                          := stored_resource ws user_email w]> (resources w))
                       w))))
  end.
  rewrite search_section_page by done.
  by rewrite !search_page_log, !log_log, <- !app_assoc.
Qed.

(** X10: a valid post without a file ends normally, and the run that stores
    the listing also shows its card, exactly when the listing passes the
    search test of the query typed in the search box; the moderation result
    plays no part. *)
Theorem posted_listing_appears_in_results
    (ws : widgets) (w : world) (user_email : string) :
  has_gemini_api_key sv = true →
  session_user w = Some user_email →
  falsy (w_title ws) || falsy (w_description ws) = false →
  w_uploaded_file ws = None →
  let id := fresh (dom (resources w)) in
  let stored := stored_resource ws user_email w in
  (app lower str_of_resource sv ws ClickPost w).1 = Return tt
  ∧ resources (app lower str_of_resource sv ws ClickPost w).2 !! id
    = Some stored
  ∧ ∃ evs,
      trace (app lower str_of_resource sv ws ClickPost w).2 = trace w ++ evs
      ∧ (EvCard id stored ∈ evs
         ↔ shown lower (w_search_query ws) stored = true).
Proof.
  intros Hkey Hu Hf Hfile. cbv zeta.
  rewrite (app_post_run ws w user_email) by done. cbv zeta. cbn [fst snd].
  split; [done|]. split; [apply lookup_insert_eq|].
  eexists. split; [reflexivity|].
  rewrite !elem_of_app, card_in_search_page.
  split.
  - intros [H|[H|[H|[H|H]]]].
    + by apply card_in_greeting in H.
    + apply list_elem_of_singleton in H. discriminate H.
    + by apply card_in_pipeline_events in H.
    + apply elem_of_cons in H as [H|H]; [discriminate H|].
      apply list_elem_of_singleton in H. discriminate H.
    + by destruct H as (_ & _ & H).
  - intros H. do 4 right. split; [apply lookup_insert_eq|]. by split.
Qed.

End PostThenSearch.

(** ** The key of an uploaded file (line 139) *)

Lemma split_head_cons (sep c : ascii) (s : string) :
  split_head sep (String c s)
  = if Ascii.eqb c sep then "" else String c (split_head sep s).
Proof. done. Qed.

(** X11: [s.split(sep)[0]] as modelled is the text before the first
    separator: the text is that head followed by nothing or by a rest that
    starts with the separator, and the head holds no separator. *)
Theorem split_head_spec (sep : ascii) (s : string) :
  (∃ rest, s = split_head sep s +:+ rest
           ∧ (rest = "" ∨ ∃ r, rest = String sep r))
  ∧ ¬ contains (String sep "") (split_head sep s).
Proof.
  induction s as [|c s [(rest & Hs & Hrest) Hno]].
  - split; [exists ""; by split; [|left]|].
    intros ([|? ?] & after & H); discriminate H.
  - rewrite split_head_cons. destruct (Ascii.eqb c sep) eqn:Hc.
    + apply Ascii.eqb_eq in Hc as ->. split.
      * exists (String sep s). split; [done|]. right. by exists s.
      * intros ([|? ?] & after & H); discriminate H.
    + apply Ascii.eqb_neq in Hc. split.
      * exists rest. split; [|done]. by rewrite append_cons, <- Hs.
      * intros ([|b before] & after & H).
        -- rewrite append_nil_l, append_cons in H. congruence.
        -- rewrite append_cons in H. injection H as _ H.
           apply Hno. by exists before, after.
Qed.

Section BlobKeys.

Variable lower : string → string.
Variable str_of_resource : resource → string.
Variable sv : services.

(** X12: the key of an uploaded file is built from the part of the owner's
    email before the first "@" and the file's name only.  Two users whose
    emails agree on that part and who upload files of the same name write to
    the same key, and the second upload replaces the first. *)
Theorem same_local_part_overwrites_blob
    (ws1 ws2 : widgets) (w : world) (email1 email2 : string) (f1 f2 : upload) :
  split_head "@"%char email1 = split_head "@"%char email2 →
  upload_name f1 = upload_name f2 →
  falsy (w_title ws1) || falsy (w_description ws1) = false →
  falsy (w_title ws2) || falsy (w_description ws2) = false →
  w_uploaded_file ws1 = Some f1 →
  w_uploaded_file ws2 = Some f2 →
  let key := blob_key email1 (upload_name f1) in
  let first :=
    (post_section lower str_of_resource sv ws1 ClickPost
       (with_session_user (Some email1) w)).2 in
  let second :=
    (post_section lower str_of_resource sv ws2 ClickPost
       (with_session_user (Some email2) first)).2 in
  bucket first !! key = Some (upload_bytes f1)
  ∧ bucket second !! key = Some (upload_bytes f2)
  ∧ bucket second = <[key := upload_bytes f2]> (bucket w).
Proof.
  intros Hlocal Hname Hf1 Hf2 Hfile1 Hfile2. simpl.
  rewrite (post_with_file lower str_of_resource sv ws1
             (with_session_user (Some email1) w) email1 f1 eq_refl Hf1 Hfile1).
  simpl.
  rewrite (post_with_file lower str_of_resource sv ws2 _ email2 f2) by done.
  simpl. unfold blob_key. rewrite <- Hlocal, <- Hname.
  rewrite !lookup_insert_eq. split; [done|]. split; [done|].
  apply insert_insert_eq.
Qed.

End BlobKeys.

(** ** The closing message of the search section (lines 205-208) *)

Section ClosingMessage.

Variable lower : string → string.

Lemma message_in_render k text search_query docs :
  EvMessage k text ∉ render lower search_query docs.
Proof.
  induction docs as [|[id data] docs IH]; simpl; [apply not_elem_of_nil|].
  destruct (shown lower search_query data); [|done].
  intros H. apply elem_of_cons in H as [H|H]; [discriminate H|].
  apply elem_of_app in H as [H|H]; [|done].
  unfold file_events in H. destruct (falsy _); [by apply elem_of_nil in H|].
  destruct (is_image_url _ _); apply list_elem_of_singleton in H;
    discriminate H.
Qed.

Lemma none_shown_iff search_query w :
  existsb (λ kv, shown lower search_query kv.2) (available_docs w) = false
  ↔ ∀ id d, resources w !! id = Some d → status d = "available" →
            shown lower search_query d = false.
Proof.
  split.
  - intros Hnone id d Hlook Hav.
    destruct (shown lower search_query d) eqn:Hs; [|done].
    assert (existsb (λ kv, shown lower search_query kv.2) (available_docs w)
            = true) as Hsome; [|congruence].
    apply existsb_exists. exists (id, d). split; [|done].
    apply list_elem_of_In. by apply (elem_of_available_docs lower).
  - intros Hall.
    destruct (existsb _ _) eqn:Hsome; [|done].
    apply existsb_exists in Hsome as ([id d] & Hin & Hs).
    apply list_elem_of_In, (elem_of_available_docs lower) in Hin as [H1 H2].
    simpl in Hs. rewrite (Hall id d H1 H2) in Hs. discriminate Hs.
Qed.

(** X13: in a run where no request button was pressed, "No resources found"
    is shown exactly when the query is not empty and no available listing
    passes the search test, and the tip is shown exactly when the query is
    empty; so with an empty query and nothing to show the page gives the
    tip, not "No resources found". *)
Theorem closing_message_rule (ws : widgets) (c : click) (w : world) :
  is_request c = false →
  ∃ evs,
    trace (search_section lower ws c w).2 = trace w ++ evs
    ∧ (EvMessage st_info "No resources found matching your search." ∈ evs
       ↔ w_search_query ws ≠ ""
         ∧ ∀ id d, resources w !! id = Some d → status d = "available" →
                   shown lower (w_search_query ws) d = false)
    ∧ (EvMessage st_info "Tip: Use the search box above to filter resources."
         ∈ evs
       ↔ w_search_query ws = "").
Proof.
  intros Hc. rewrite search_section_idle by done. cbv zeta. cbn [snd].
  eexists. split; [reflexivity|].
  rewrite <- none_shown_iff.
  set (found := existsb _ _).
  rewrite <- falsy_false_iff, <- falsy_true_iff.
  assert (∀ text,
            EvMessage st_info text
              ∈ [EvDbQuery "available"]
                ++ render lower (w_search_query ws) (available_docs w)
                ++ closing_events (w_search_query ws) found
            ↔ EvMessage st_info text
                ∈ closing_events (w_search_query ws) found) as Hin.
  { intros text. rewrite !elem_of_app. split; [|by auto].
    intros [H|[H|H]]; [|by apply message_in_render in H|done].
    apply list_elem_of_singleton in H. discriminate H. }
  rewrite !Hin. unfold closing_events.
  destruct found, (falsy (w_search_query ws)); simpl;
    rewrite ?list_elem_of_singleton, ?elem_of_nil; split; split;
    try done; try (by intros [? ?]); intros H; discriminate H.
Qed.

End ClosingMessage.

(** ** No service is used without its button *)

Section Buttons.

Variable lower : string → string.
Variable str_of_resource : resource → string.

Lemma trace_log evs w : trace (log evs w) = trace w ++ evs.
Proof. done. Qed.

Lemma permitted_app c u evs1 evs2 :
  forallb (permitted c u) (evs1 ++ evs2)
  = forallb (permitted c u) evs1 && forallb (permitted c u) evs2.
Proof. apply forallb_app. Qed.

(** Events that use no service are allowed in every run. *)
Lemma untouched_permitted c u evs :
  untouched evs = true → forallb (permitted c u) evs = true.
Proof.
  induction evs as [|e evs IH]; [done|]. simpl.
  intros [He Hrest]%andb_true_iff. rewrite IH by done.
  by destruct e.
Qed.

Lemma permitted_pipeline_events sv u resource_data :
  forallb (permitted ClickPost (Some u))
    (pipeline_events lower str_of_resource sv resource_data) = true.
Proof.
  unfold pipeline_events. simpl.
  destruct (llm_run sv stitch_agent _); [|done]. simpl.
  destruct (llm_run sv antigravity_agent _); [|done].
  by destruct (str_in _ _).
Qed.

Lemma auth_section_permitted sv ws c w :
  ∃ evs,
    trace (auth_section sv ws c w).2 = trace w ++ evs
    ∧ forallb (permitted c (session_user w)) evs = true.
Proof.
  unfold auth_section. destruct (session_user w) as [u|] eqn:Hu.
  { destruct c; simpl; eexists; (split; [reflexivity|done]). }
  destruct c; try (exists []; by rewrite app_nil_r).
  destruct (falsy (w_email ws) || falsy (w_password ws)).
  { by eexists. }
  unfold try_except, mbind, M_bind, bind, auth_create_user,
    auth_get_user_by_email, of_reply, message, emit, ret, raise,
    set_session, halt.
  destruct (w_choice ws); simpl.
  - destruct (get_user_by_email sv (w_email ws)) as [[]|e]; simpl.
    + rewrite <- app_assoc. by eexists.
    + repeat (destruct (str_in _ e); simpl); rewrite <- app_assoc;
        by eexists.
  - destruct (create_user sv (w_email ws) (w_password ws)) as [[]|e]; simpl.
    + rewrite <- !app_assoc. by eexists.
    + repeat (destruct (str_in _ e); simpl); rewrite <- app_assoc;
        by eexists.
Qed.

Lemma post_section_permitted sv ws c w :
  ∃ evs,
    trace (post_section lower str_of_resource sv ws c w).2 = trace w ++ evs
    ∧ forallb (permitted c (session_user w)) evs = true.
Proof.
  destruct (session_user w) as [user_email|] eqn:Hu; cycle 1.
  { rewrite post_not_logged_in by done. exists []. by rewrite app_nil_r. }
  destruct (decide (c = ClickPost)) as [->|Hc]; cycle 1.
  { rewrite post_other_click by done. exists []. by rewrite app_nil_r. }
  destruct (falsy (w_title ws) || falsy (w_description ws)) eqn:Hf.
  { rewrite (post_missing_field _ _ _ _ _ user_email) by done. by eexists. }
  destruct (w_uploaded_file ws) as [f|] eqn:Hfile.
  { rewrite (post_with_file _ _ _ _ _ user_email f) by done. by eexists. }
  rewrite (post_without_file _ _ _ _ _ user_email) by done.
  eexists. split; [reflexivity|].
  rewrite !permitted_app, permitted_pipeline_events. done.
Qed.

Lemma show_resources_permitted search_query c u docs found w :
  ∃ evs,
    trace (show_resources lower search_query c docs found w).2
    = trace w ++ evs
    ∧ forallb (permitted c u) evs = true.
Proof.
  revert found w. induction docs as [|[id data] docs IH]; intros found w.
  - exists []. by rewrite app_nil_r.
  - simpl. destruct (shown lower search_query data); [|apply IH].
    unfold mbind, M_bind, bind, emit. simpl. rewrite show_file_run.
    assert (forallb (permitted c u) (EvCard id data :: file_events lower data)
            = true) as Hcard.
    { apply untouched_permitted.
      change (untouched (file_events lower data) = true).
      apply untouched_file_events. }
    destruct (decide (c = ClickRequest id)) as [->|Hc].
    + simpl. rewrite bool_decide_eq_true_2 by done.
      unfold mbind, M_bind, bind, db_update_status, message, emit, halt.
      destruct (resources _ !! id); simpl;
        rewrite <- !app_assoc; eexists; (split; [reflexivity|]);
        simpl in *; rewrite permitted_app, Hcard; simpl;
        by rewrite bool_decide_eq_true_2.
    + rewrite request_button_other by done.
      destruct (IH true (log (file_events lower data)
                           (log [EvCard id data] w))) as (evs & Htr & Hok).
      rewrite Htr. simpl. rewrite <- !app_assoc.
      eexists. split; [reflexivity|].
      simpl in *. by rewrite permitted_app, Hcard, Hok.
Qed.

Lemma search_section_permitted ws c u w :
  ∃ evs,
    trace (search_section lower ws c w).2 = trace w ++ evs
    ∧ forallb (permitted c u) evs = true.
Proof.
  unfold search_section, mbind, M_bind, bind, db_where_status. simpl.
  destruct (show_resources_permitted (w_search_query ws) c u
              (filter (λ kv, status kv.2 = "available")
                 (map_to_list (resources w)))
              false (log [EvDbQuery "available"] w)) as (evs & Htr & Hok).
  destruct (show_resources _ _ _ _ _) as [[found| |] w1]; simpl in *;
    try (rewrite Htr, <- app_assoc; eexists; (split; [reflexivity|]);
         simpl; done).
  unfold message, emit, ret.
  destruct (negb found && _); simpl.
  { rewrite Htr, <- !app_assoc. eexists. split; [reflexivity|].
    simpl. by rewrite permitted_app, Hok. }
  destruct (falsy _); simpl.
  - rewrite Htr, <- !app_assoc. eexists. split; [reflexivity|].
    simpl. by rewrite permitted_app, Hok.
  - rewrite Htr, <- !app_assoc. eexists. split; [reflexivity|]. done.
Qed.

Lemma app_permitted sv ws c w :
  ∃ evs,
    trace (app lower str_of_resource sv ws c w).2 = trace w ++ evs
    ∧ forallb (permitted c (session_user w)) evs = true.
Proof.
  unfold app. destruct (has_gemini_api_key sv); [|by eexists].
  unfold mbind, M_bind, bind.
  destruct (auth_section_permitted sv ws c w) as (evs1 & Htr1 & Hok1).
  pose proof (auth_section_return sv ws c w) as Hsession.
  destruct (auth_section sv ws c w) as [[[]| |] w1]; simpl in *;
    try by exists evs1.
  specialize (Hsession eq_refl).
  destruct (post_section_permitted sv ws c w1) as (evs2 & Htr2 & Hok2).
  rewrite Hsession in Hok2.
  destruct (post_section _ _ _ _ _ _) as [[[]| |] w2]; simpl in *;
    try (exists (evs1 ++ evs2);
         by rewrite Htr2, Htr1, <- app_assoc, permitted_app, Hok1, Hok2).
  destruct (search_section_permitted ws c (session_user w) w2)
    as (evs3 & Htr3 & Hok3).
  exists (evs1 ++ evs2 ++ evs3).
  by rewrite Htr3, Htr2, Htr1, <- !app_assoc, !permitted_app, Hok1, Hok2, Hok3.
Qed.

(** What a run without a button may do, any run may do. *)
Lemma permitted_no_click u e c u' :
  permitted NoClick u e = true → permitted c u' e = true.
Proof. by destruct e. Qed.

(** X14: in every interaction, whatever the services answer, the model is
    called, a file uploaded or a listing added only when a logged-in user
    pressed the post button; the identity provider is called only when a
    logged-out visitor pressed the login form's button; a listing is updated
    only when its own request button was pressed, and only to "requested";
    and no signed URL is ever asked for. *)
Theorem no_service_without_its_button
    (sv : services) (ws : widgets) (c : click) (w : world) :
  ∃ evs,
    trace (interact lower str_of_resource sv ws c w).2 = trace w ++ evs
    ∧ forallb (permitted c (session_user w)) evs = true.
Proof.
  unfold interact.
  destruct (app_permitted sv ws c w) as (evs1 & Htr1 & Hok1).
  destruct (app lower str_of_resource sv ws c w) as [[[]| |[|]] w1];
    simpl in *; try by exists evs1.
  destruct (app_permitted sv ws NoClick w1) as (evs2 & Htr2 & Hok2).
  exists (evs1 ++ evs2).
  rewrite Htr2, Htr1, <- app_assoc, permitted_app, Hok1. split; [done|].
  simpl. clear -Hok2. induction evs2 as [|e evs2 IH]; [done|].
  simpl in *. apply andb_true_iff in Hok2 as [He Hrest].
  by rewrite (permitted_no_click _ _ c (session_user w) He), IH.
Qed.

End Buttons.

(** ** The pipeline's calls and the message it returns *)

Section PipelineCalls.

Variable lower : string → string.
Variable str_of_resource : resource → string.
Variable sv : services.

(** X15: whatever the three agents answer, the pipeline returns a message
    and never raises; it calls the normalizer exactly once, on the text of
    the posted dictionary, and each of the other two agents at most once and
    only on the text the normalizer answered: no stage is retried, and the
    recommender never sees the screener's output. *)
Theorem pipeline_calls_each_agent_at_most_once
    (resource_data : resource) (w : world) (a : agent) :
  let run :=
    process_resource_with_agents lower str_of_resource sv resource_data w in
  (∃ message, run.1 = Return message)
  ∧ runs_of stitch_agent (trace run.2)
    = runs_of stitch_agent (trace w) ++ [str_of_resource resource_data]
  ∧ ∃ inputs,
      runs_of a (trace run.2) = runs_of a (trace w) ++ inputs
      ∧ List.length inputs ≤ 1
      ∧ (a ≠ stitch_agent → ∀ input, input ∈ inputs →
         llm_run sv stitch_agent (str_of_resource resource_data)
         = Answer input).
Proof.
  cbv zeta. rewrite pipeline_run. cbn [fst snd]. rewrite trace_log.
  split; [by eexists|]. rewrite !runs_of_app. unfold pipeline_events.
  destruct (llm_run sv stitch_agent _) as [cleaned|e]; cycle 1.
  { split; [done|]. eexists. split; [reflexivity|].
    destruct a; simpl; split; try lia; try done;
      intros _ input H; by apply elem_of_nil in H. }
  destruct (llm_run sv antigravity_agent cleaned) as [safety|e]; cycle 1.
  { split; [done|]. eexists. split; [reflexivity|].
    destruct a; simpl; split; try lia; try done;
      intros _ input H; try (by apply elem_of_nil in H);
      by apply list_elem_of_singleton in H as ->. }
  destruct (str_in "rejected" (lower safety)).
  { split; [done|]. eexists. split; [reflexivity|].
    destruct a; simpl; split; try lia; try done;
      intros _ input H; try (by apply elem_of_nil in H);
      by apply list_elem_of_singleton in H as ->. }
  split; [done|]. eexists. split; [reflexivity|].
  destruct a; simpl; split; try lia; try done;
    intros _ input H; by apply list_elem_of_singleton in H as ->.
Qed.

Lemma classify_rejected text : classify ("❌ Rejected: " +:+ text) = rejected.
Proof.
  unfold classify.
  rewrite (proj2 (prefix_true_iff "❌ Rejected: " _)); [done|by eexists].
Qed.

Lemma classify_approved text :
  classify ("✅ Approved!" +:+ text) = approved.
Proof.
  unfold classify.
  assert (String.prefix "❌ Rejected: " ("✅ Approved!" +:+ text) = false)
    as -> by done.
  rewrite (proj2 (prefix_true_iff "✅ Approved!" _)); [done|by eexists].
Qed.

Lemma classify_agent_error text :
  classify ("⚠️ Agent error: " +:+ text) = agent_error.
Proof. done. Qed.

(** X16: the head of the returned message tells which path the pipeline
    took, whatever the agents' texts are: it reads as a rejection exactly
    when normalizer and screener answered and the lowercased verdict holds
    "rejected"; as an approval exactly when all three agents answered and
    the verdict does not hold it; and as an agent error exactly when a
    stage that was called failed. *)
Theorem message_head_tells_the_path (resource_data : resource) :
  let message :=
    pipeline_message lower str_of_resource sv resource_data in
  let input := str_of_resource resource_data in
  (classify message = rejected
   ↔ ∃ cleaned safety,
       llm_run sv stitch_agent input = Answer cleaned
       ∧ llm_run sv antigravity_agent cleaned = Answer safety
       ∧ contains "rejected" (lower safety))
  ∧ (classify message = approved
     ↔ ∃ cleaned safety recommendations,
         llm_run sv stitch_agent input = Answer cleaned
         ∧ llm_run sv antigravity_agent cleaned = Answer safety
         ∧ ¬ contains "rejected" (lower safety)
         ∧ llm_run sv gemini_agent cleaned = Answer recommendations)
  ∧ (classify message = agent_error
     ↔ ∃ e, message = "⚠️ Agent error: " +:+ e).
Proof.
  cbv zeta. unfold pipeline_message.
  destruct (llm_run sv stitch_agent _) as [cleaned|e]; cycle 1.
  { rewrite classify_agent_error.
    split; [|split]; split; try done.
    - intros (? & ? & H & _). discriminate H.
    - intros (? & ? & ? & H & _). discriminate H.
    - intros _. by eexists. }
  destruct (llm_run sv antigravity_agent cleaned) as [safety|e] eqn:Hscreen;
    cycle 1.
  { rewrite classify_agent_error.
    split; [|split]; split; try done.
    - intros (? & ? & H1 & H2 & _). simplify_eq; congruence.
    - intros (? & ? & ? & H1 & H2 & _). simplify_eq; congruence.
    - intros _. by eexists. }
  destruct (str_in "rejected" (lower safety)) eqn:Hin.
  { apply str_in_true_iff in Hin. rewrite classify_rejected.
    split; [|split]; split; try done.
    - intros _. by exists cleaned, safety.
    - intros (? & ? & ? & H1 & H2 & H3 & _). simplify_eq; congruence.
    - intros (e & H). discriminate H. }
  apply str_in_false_iff in Hin.
  destruct (llm_run sv gemini_agent cleaned) as [recs|e] eqn:Hrecs; cycle 1.
  { rewrite classify_agent_error.
    split; [|split]; split; try done.
    - intros (? & ? & H1 & H2 & H3). simplify_eq; congruence.
    - intros (? & ? & ? & H1 & H2 & _ & H4). simplify_eq; congruence.
    - intros _. by eexists. }
  rewrite classify_approved.
  split; [|split]; split; try done.
  - intros (? & ? & H1 & H2 & H3). simplify_eq; congruence.
  - intros _. by exists cleaned, safety, recs.
  - intros (e & H). discriminate H.
Qed.

End PipelineCalls.

(** ** More on strings *)

Lemma append_assoc (a b c : string) : (a +:+ b) +:+ c = a +:+ (b +:+ c).
Proof.
  induction a as [|x a IH]; [done|]. by rewrite !append_cons, IH.
Qed.

Lemma contains_append_l (token a b : string) :
  contains token a → contains token (a +:+ b).
Proof.
  intros (before & after & ->). exists before, (after +:+ b).
  by rewrite !append_assoc.
Qed.

Lemma contains_append_r (token a b : string) :
  contains token b → contains token (a +:+ b).
Proof.
  intros (before & after & ->). exists (a +:+ before), after.
  by rewrite !append_assoc.
Qed.

Lemma rev_app_cons (c : ascii) (s acc : string) :
  String.rev_app (String c s) acc = String.rev_app s (String c acc).
Proof. done. Qed.

Lemma rev_app_append (s acc : string) :
  String.rev_app s acc = String.rev s +:+ acc.
Proof.
  unfold String.rev. revert acc. induction s as [|c s IH]; intros acc; [done|].
  rewrite !rev_app_cons, (IH (String c acc)), (IH (String c "")).
  by rewrite append_assoc.
Qed.

Lemma rev_cons (c : ascii) (s : string) :
  String.rev (String c s) = String.rev s +:+ String c "".
Proof. unfold String.rev at 1. by rewrite rev_app_cons, rev_app_append. Qed.

Lemma rev_append (s t : string) :
  String.rev (s +:+ t) = String.rev t +:+ String.rev s.
Proof.
  induction s as [|c s IH].
  - by rewrite append_nil_l, append_empty_r.
  - by rewrite append_cons, !rev_cons, IH, append_assoc.
Qed.

Lemma rev_involutive (s : string) : String.rev (String.rev s) = s.
Proof.
  induction s as [|c s IH]; [done|].
  by rewrite rev_cons, rev_append, IH.
Qed.

(** [endswith] as modelled is Python's: the text is some text followed by the
    suffix. *)
Lemma endswith_true_iff (s suffix : string) :
  endswith s suffix = true ↔ ∃ stem, s = stem +:+ suffix.
Proof.
  unfold endswith. rewrite prefix_true_iff. split.
  - intros (t & H). exists (String.rev t).
    by rewrite <- (rev_involutive s), H, rev_append, rev_involutive.
  - intros (stem & ->). exists (String.rev stem). apply rev_append.
Qed.

(** ** What a card shows for the attached file (lines 194-198) *)

Section FileDisplay.

Variable lower : string → string.

(** X17: a card shows the file as an image exactly when the listing's
    [file_url] is not empty and, lowercased, ends in ".jpg", ".jpeg" or
    ".png"; any other non-empty [file_url] gets a download link; an empty one
    shows nothing. *)
Theorem file_display_rule (data : resource) :
  let url := file_url data in
  let is_image :=
    ∃ stem extension,
      extension ∈ image_extensions ∧ lower url = stem +:+ extension in
  (file_events lower data = [EvImage url] ↔ url ≠ "" ∧ is_image)
  ∧ (file_events lower data = [EvDownloadLink url] ↔ url ≠ "" ∧ ¬ is_image)
  ∧ (file_events lower data = [] ↔ url = "").
Proof.
  cbv zeta. unfold file_events, image_extensions.
  assert (is_image_url lower (file_url data) = true
          ↔ ∃ stem extension,
              extension ∈ [".jpg"; ".jpeg"; ".png"]
              ∧ lower (file_url data) = stem +:+ extension) as Himg.
  { unfold is_image_url. rewrite !orb_true_iff, !endswith_true_iff. split.
    - intros [[[stem H]|[stem H]]|[stem H]]; exists stem; eexists;
        (split; [|exact H]); set_solver.
    - intros (stem & ext & Hext & H).
      apply elem_of_cons in Hext as [->|Hext]; [left; left; by exists stem|].
      apply elem_of_cons in Hext as [->|Hext]; [left; right; by exists stem|].
      apply list_elem_of_singleton in Hext as ->. right. by exists stem. }
  rewrite <- Himg, <- falsy_false_iff, <- falsy_true_iff.
  destruct (falsy (file_url data)), (is_image_url lower (file_url data));
    (split; [|split]); split; try done; try (by intros [? ?]);
    try (by intros [_ H]; exfalso; apply H).
Qed.

End FileDisplay.

(** ** Searching by title, description or category *)

Section SearchFields.

Variable lower : string → string.

(** X18: when lowercasing the joined text is lowercasing its three fields
    (as for ASCII text), a listing passes the search test as soon as the
    lowercased query occurs in its lowercased title, or description, or
    category. *)
Theorem search_matches_each_field (search_query : string) (data : resource) :
  lower (title data +:+ " " +:+ description data +:+ " " +:+ category data)
  = lower (title data) +:+ " " +:+ lower (description data) +:+ " "
    +:+ lower (category data) →
  contains (lower search_query) (lower (title data))
  ∨ contains (lower search_query) (lower (description data))
  ∨ contains (lower search_query) (lower (category data)) →
  shown lower search_query data = true.
Proof.
  intros Hjoin Hfield. unfold shown. rewrite Hjoin.
  apply orb_true_iff. left. apply str_in_true_iff.
  destruct Hfield as [H|[H|H]].
  - by apply contains_append_l.
  - by apply contains_append_r, contains_append_r, contains_append_l.
  - by do 4 apply contains_append_r.
Qed.

End SearchFields.

(** * The further properties at concrete inputs *)

Lemma login_success_sets_session_witness :
  (auth_section approving login_form ClickSubmit logged_out).1
  = Halt ScriptRerun
  ∧ session_user (auth_section approving login_form ClickSubmit logged_out).2
    = Some "ann@college.edu".
Proof.
  destruct (login_success_sets_session approving login_form logged_out)
    as (Hout & Hsession & _); try reflexivity.
  split; [exact Hout | exact Hsession].
Defined.

Lemma login_ignores_password_witness :
  auth_section approving (with_password "wrong" login_form) ClickSubmit
    logged_out
  = auth_section approving login_form ClickSubmit logged_out.
Proof.
  apply (login_ignores_password approving login_form "wrong" logged_out);
    reflexivity.
Defined.

Lemma signup_does_not_log_in_witness :
  (auth_section approving signup_form ClickSubmit logged_out).1 = Return tt
  ∧ session_user (auth_section approving signup_form ClickSubmit logged_out).2
    = None.
Proof.
  destruct (signup_does_not_log_in approving signup_form logged_out)
    as (Hout & Hsession & _); try reflexivity.
  split; [exact Hout | exact Hsession].
Defined.

Lemma identity_failure_is_reported_witness :
  (auth_section (identity_failing "EMAIL_ALREADY_EXISTS (ann)") signup_form
     ClickSubmit logged_out).1 = Return tt
  ∧ trace (auth_section (identity_failing "EMAIL_ALREADY_EXISTS (ann)")
             signup_form ClickSubmit logged_out).2
    = [EvCreateUser "ann@college.edu" "secret";
       EvMessage st_error
         (identity_error_message "EMAIL_ALREADY_EXISTS (ann)")].
Proof.
  destruct (identity_failure_is_reported
              (identity_failing "EMAIL_ALREADY_EXISTS (ann)") signup_form
              logged_out "EMAIL_ALREADY_EXISTS (ann)")
    as (Hout & _ & Htrace & _); try reflexivity.
  split; [exact Hout | exact Htrace].
Defined.

Lemma logout_clears_session_witness :
  app ascii_lower show_resource approving searching_ml ClickLogout
    ann_with_book
  = (Halt ScriptRerun,
     with_session_user None
       (log [EvMessage st_success ("Logged in as: " +:+ "ann@college.edu")]
          ann_with_book))
  ∧ session_user
      (app ascii_lower show_resource approving book_form NoClick
         (app ascii_lower show_resource approving searching_ml ClickLogout
            ann_with_book).2).2 = None.
Proof.
  destruct (logout_clears_session ascii_lower show_resource approving
              searching_ml book_form ann_with_book "ann@college.edu"
              eq_refl eq_refl) as (Hfirst & _ & Hsession & _).
  split; [exact Hfirst | exact Hsession].
Defined.

Lemma request_marks_listing_requested_witness :
  (app ascii_lower show_resource approving searching_ml (ClickRequest "b1")
     with_book).1 = Halt ScriptRerun
  ∧ resources
      (app ascii_lower show_resource approving searching_ml
         (ClickRequest "b1") with_book).2 !! "b1"
    = Some (set_status "requested" stored_book).
Proof.
  destruct (request_marks_listing_requested ascii_lower show_resource
              approving searching_ml with_book "b1" stored_book)
    as (Hout & Hlook & _); try reflexivity.
  split; [exact Hout | exact Hlook].
Defined.

Lemma requested_listing_leaves_results_witness :
  ∃ page,
    interact ascii_lower show_resource approving searching_ml
      (ClickRequest "b1") with_book
    = (Return tt,
       log page
         (app ascii_lower show_resource approving searching_ml
            (ClickRequest "b1") with_book).2)
    ∧ ∀ id' d',
        EvCard id' d' ∈ page
        ↔ id' ≠ "b1" ∧ resources with_book !! id' = Some d'
          ∧ status d' = "available"
          ∧ shown ascii_lower (w_search_query searching_ml) d' = true.
Proof.
  apply (requested_listing_leaves_results ascii_lower show_resource approving
           searching_ml with_book "b1" stored_book); reflexivity.
Defined.

Lemma created_listing_is_form_data_witness :
  ClickPost = ClickPost
  ∧ w_uploaded_file book_form = None
  ∧ "0" = fresh (dom (resources logged_in))
  ∧ session_user logged_in = Some (owner stored_book)
  ∧ stored_book
    = {| title := w_title book_form; description := w_description book_form;
         category := category_label (w_category book_form);
         owner := owner stored_book; file_url := ""; status := "available";
         timestamp := ServerTime (clock logged_in) |}.
Proof.
  apply (created_listing_is_form_data ascii_lower show_resource rejecting
           book_form ClickPost logged_in "0" stored_book).
  - reflexivity.
  - vm_compute. reflexivity.
Defined.

Lemma listing_changes_only_by_its_request_witness :
  ClickRequest "b1" = ClickRequest "b1"
  ∧ status stored_book = "available"
  ∧ set_status "requested" stored_book = set_status "requested" stored_book.
Proof.
  apply (listing_changes_only_by_its_request ascii_lower show_resource
           approving searching_ml (ClickRequest "b1") with_book "b1"
           stored_book (set_status "requested" stored_book)).
  - reflexivity.
  - vm_compute. reflexivity.
  - discriminate.
Defined.

Lemma posted_listing_appears_in_results_witness :
  (app ascii_lower show_resource rejecting book_form ClickPost logged_in).1
  = Return tt
  ∧ resources
      (app ascii_lower show_resource rejecting book_form ClickPost
         logged_in).2 !! fresh (dom (resources logged_in))
    = Some (stored_resource book_form "ann@college.edu" logged_in).
Proof.
  destruct (posted_listing_appears_in_results ascii_lower show_resource
              rejecting book_form logged_in "ann@college.edu")
    as (Hout & Hlook & _); try reflexivity.
  split; [exact Hout | exact Hlook].
Defined.

Lemma same_local_part_overwrites_blob_witness :
  bucket
    (post_section ascii_lower show_resource approving photo_form_of_other_ann
       ClickPost
       (with_session_user (Some "ann@other.org")
          (post_section ascii_lower show_resource approving
             book_form_with_photo ClickPost
             (with_session_user (Some "ann@college.edu") logged_out)).2)).2
    !! "ann_cover.png" = Some "OTHER".
Proof.
  refine (proj1 (proj2 (same_local_part_overwrites_blob ascii_lower
                          show_resource approving book_form_with_photo
                          photo_form_of_other_ann logged_out
                          "ann@college.edu" "ann@other.org"
                          {| upload_name := "cover.png"; upload_bytes := "PNG" |}
                          {| upload_name := "cover.png";
                             upload_bytes := "OTHER" |}
                          _ _ _ _ _ _)));
    reflexivity.
Defined.

Lemma closing_message_rule_witness :
  ∃ evs,
    trace (search_section ascii_lower searching_ml NoClick with_taken_notes).2
    = trace with_taken_notes ++ evs
    ∧ (EvMessage st_info "No resources found matching your search." ∈ evs
       ↔ w_search_query searching_ml ≠ ""
         ∧ ∀ id d, resources with_taken_notes !! id = Some d →
                   status d = "available" →
                   shown ascii_lower (w_search_query searching_ml) d = false)
    ∧ (EvMessage st_info "Tip: Use the search box above to filter resources."
         ∈ evs
       ↔ w_search_query searching_ml = "").
Proof.
  apply (closing_message_rule ascii_lower searching_ml NoClick
           with_taken_notes).
  reflexivity.
Defined.

Lemma search_matches_each_field_witness :
  shown ascii_lower "ANDREW" stored_book = true.
Proof.
  apply (search_matches_each_field ascii_lower "ANDREW" stored_book).
  - reflexivity.
  - left. exists "intro to ml by ", " ng". reflexivity.
Defined.
